(** * Blogicum: visibility queries, access guards, pagination, notifications

    A shallow embedding of [core/utils.py] and [blog/views.py].

    Database tables are finite maps from primary keys to rows; a query set is
    the list of rows a query yields; a view is a computation over the stored
    state and the mail outbox that can raise the exceptions the framework
    turns into error responses. *)

From Stdlib Require Import Ascii String.
From stdpp Require Import gmap strings list sorting pretty.

Open Scope Z_scope.

(** ** Model instances and tables *)

(** A model instance: a row together with its primary key. *)
Record Instance (A : Type) := instance { pk : Z; row : A }.
Arguments instance {A} pk row.
Arguments pk {A} _.
Arguments row {A} _.

(** [Model.objects.all()]: every row of a table as an instance. *)
Definition objects {A} (table : gmap Z A) : list (Instance A) :=
  (λ kr, instance kr.1 kr.2) <$> map_to_list table.

(** [Model.__eq__]: two instances of one model are equal when their primary
    keys are. *)
Definition model_eq {A} (x y : Instance A) : bool := bool_decide (pk x = pk y).

(** The models of [blog/models.py], with the fields the views read.  The
    model file is not among the sources; as in the documented data model
    every post carries an author and a category, and a post read through
    [select_related] holds both rows. *)
Module User.
Record t := { username : string; email : string }.
End User.

Module Category.
Record t := { slug : string; is_published : bool }.
End Category.

Module Location.
Record t := { name : string }.
End Location.

Module Post.
Record t := {
  author : Instance User.t;
  category : Instance Category.t;
  location : option (Instance Location.t);
  title : string;
  text : string;
  pub_date : Z;
  is_published : bool
}.
End Post.

Module Comment.
Record t := {
  author : Instance User.t;
  post : Z;
  text : string
}.
End Comment.

Record Store := {
  users : gmap Z User.t;
  categories : gmap Z Category.t;
  posts : gmap Z Post.t;
  comments : gmap Z Comment.t
}.

(** [request.user]: the anonymous user or a stored one. *)
Inductive RequestUser :=
| AnonymousUser
| Authenticated (u : Instance User.t).

Definition is_authenticated (v : RequestUser) : bool :=
  match v with AnonymousUser => false | Authenticated _ => true end.

(** [author == request.user].  An anonymous user is equal to no instance. *)
Definition user_eq (a : Instance User.t) (v : RequestUser) : bool :=
  match v with
  | AnonymousUser => false
  | Authenticated u => model_eq a u
  end.

(** [str(request.user)]. *)
Definition user_str (v : RequestUser) : string :=
  match v with
  | AnonymousUser => "AnonymousUser"
  | Authenticated u => User.username (row u)
  end.

(** ** Exceptions *)

Inductive Exception :=
| Http404
| DoesNotExist
| MultipleObjectsReturned
| ZeroDivisionError
| EmptyPage
| PageNotAnInteger
| NegativeIndex
| ValueError
| DatabaseError.

Inductive Result (A : Type) :=
| Ok (a : A)
| Raise (e : Exception).
Arguments Ok {A} a.
Arguments Raise {A} e.

Definition rbind {A B} (r : Result A) (k : A → Result B) : Result B :=
  match r with
  | Ok a => k a
  | Raise e => Raise e
  end.

(** [QuerySet.get()]. *)
Definition get {A} (qs : list A) : Result A :=
  match qs with
  | [] => Raise DoesNotExist
  | [x] => Ok x
  | _ => Raise MultipleObjectsReturned
  end.

(** [get_object_or_404(Model, **lookups)]: the one instance that satisfies
    the lookups; [DoesNotExist] becomes [Http404]. *)
Definition get_object_or_404 {A} (table : gmap Z A)
    (lookups : Instance A → Prop) `{∀ o, Decision (lookups o)} : Result (Instance A) :=
  match get (filter lookups (objects table)) with
  | Raise DoesNotExist => Raise Http404
  | r => r
  end.

(** ** core/utils.py *)

(** A post row of a query set annotated with [comment_count]. *)
Record Annotated := annotated { obj : Instance Post.t; comment_count : nat }.

(** [Count("comments")]: the comments whose post is this one. *)
Definition count_comments (db : Store) (p : Instance Post.t) : nat :=
  length (filter (λ c, Comment.post (row c) = pk p) (objects (comments db))).

Definition annotate (db : Store) (p : Instance Post.t) : Annotated :=
  annotated p (count_comments db p).

(** [order_by("-pub_date")]: the later publication date comes first. *)
Definition newest_first (a b : Annotated) : Prop :=
  Post.pub_date (row (obj b)) ≤ Post.pub_date (row (obj a)).

Global Instance newest_first_dec a b : Decision (newest_first a b).
Proof. unfold newest_first. apply _. Defined.

Definition order_by_pub_date_desc (qs : list Annotated) : list Annotated :=
  merge_sort newest_first qs.

Definition post_all_query (db : Store) : list Annotated :=
  order_by_pub_date_desc (annotate db <$> objects (posts db)).

(** The filter [pub_date__lte=now, is_published=True,
    category__is_published=True]. *)
Definition published (now : Z) (p : Post.t) : Prop :=
  Post.pub_date p ≤ now
  ∧ Post.is_published p = true
  ∧ Category.is_published (row (Post.category p)) = true.

Global Instance published_dec now p : Decision (published now p).
Proof. unfold published. apply _. Defined.

Definition post_published_query (db : Store) (now : Z) : list Annotated :=
  filter (λ a, published now (row (obj a))) (post_all_query db).

(** [get_post_data(post_data)] with [post_data["post_id"] = post_id]. *)
Definition get_post_data (db : Store) (now : Z) (post_id : Z) : Result (Instance Post.t) :=
  get_object_or_404 (posts db) (λ o, pk o = post_id ∧ published now (row o)).

(** *** Pagination *)

(** [django.core.paginator.Paginator], with the defaults [orphans=0] and
    [allow_empty_first_page=True] that [get_paginated_page] leaves. *)
Record Paginator (A : Type) := {
  paginator_object_list : list A;
  per_page : Z
}.
Arguments paginator_object_list {A} _.
Arguments per_page {A} _.

Record Page (A : Type) := {
  object_list : list A;
  number : Z;
  paginator : Paginator A
}.
Arguments object_list {A} _.
Arguments number {A} _.
Arguments paginator {A} _.

Section paginator.
Context {A : Type}.

(** Python's [int] on the text of a query parameter: the integer it returns,
    [None] when it raises [ValueError]. *)
Variable int : string → option Z.

Definition count (p : Paginator A) : Z := Z.of_nat (length (paginator_object_list p)).

(** [ceil(hits / per_page)] with [hits = max(1, count - orphans)]. *)
Definition num_pages (p : Paginator A) : Result Z :=
  let hits := Z.max 1 (count p) in
  if bool_decide (per_page p = 0) then Raise ZeroDivisionError
  else Ok (- ((- hits) `div` per_page p)).

(** [validate_number(number)]; the argument is the query parameter, absent
    ([None], on which [int] raises [TypeError]) or a text. *)
Definition to_int (number : option string) : Result Z :=
  match number with
  | None => Raise PageNotAnInteger
  | Some s =>
      match int s with
      | Some n => Ok n
      | None => Raise PageNotAnInteger
      end
  end.

Definition check_range (p : Paginator A) (n : Z) : Result Z :=
  if bool_decide (n < 1) then Raise EmptyPage
  else
    rbind (num_pages p) (λ np,
      if bool_decide (np < n)
      then (if bool_decide (n = 1) then Ok n else Raise EmptyPage)
      else Ok n).

Definition validate_number (p : Paginator A) (number : option string) : Result Z :=
  rbind (to_int number) (check_range p).

(** [object_list[bottom:top]] on a query set, which rejects negative
    indices. *)
Definition slice (l : list A) (bottom top : Z) : Result (list A) :=
  if bool_decide (bottom < 0 ∨ top < 0) then Raise NegativeIndex
  else Ok (take (Z.to_nat top - Z.to_nat bottom) (drop (Z.to_nat bottom) l)).

(** [page(number)], called by [get_page] with a number: it validates the
    range again. *)
Definition page (p : Paginator A) (n : Z) : Result (Page A) :=
  rbind (check_range p n) (λ n,
    let bottom := (n - 1) * per_page p in
    let top := bottom + per_page p in
    let top := if bool_decide (count p ≤ top + 0) then count p else top in
    rbind (slice (paginator_object_list p) bottom top) (λ l,
      Ok {| object_list := l; number := n; paginator := p |})).

(** [get_page(number)]: a parameter that is not an integer gives page 1,
    one out of range gives the last page. *)
Definition get_page (p : Paginator A) (number : option string) : Result (Page A) :=
  match validate_number p number with
  | Ok n => page p n
  | Raise PageNotAnInteger => page p 1
  | Raise EmptyPage => rbind (num_pages p) (page p)
  | Raise e => Raise e
  end.
End paginator.

(** [get_paginated_page(queryset, request, per_page)], where [page_number]
    is [request.GET.get('page')] and [int] is Python's [int]. *)
Definition get_paginated_page {A} (int : string → option Z) (queryset : list A)
    (page_number : option string) (per_page : Z) : Result (Page A) :=
  get_page int {| paginator_object_list := queryset; per_page := per_page |} page_number.

(** ** Requests, responses and the view monad *)

Module Method.
Inductive t := GET | HEAD | POST | PUT | PATCH | DELETE | OPTIONS | TRACE.
End Method.

Record HttpRequest := {
  method : Method.t;
  user : RequestUser;
  GET : gmap string string;
  POST : gmap string string;
  scheme : string;
  host : string;
  full_path : string
}.

(** The named routes the views reverse, with their arguments. *)
Inductive Route :=
| post_detail (post_id : Z)
| profile (username : string)
| login (next : string).

(** What the views take from collaborators that are not among the sources:
    the clock, the URL configuration and the two edit forms.  [now] is the
    reading of [timezone.now()], taken as one value for the whole request.  A
    form maps the posted data to the cleaned values, [None] when the data is
    not valid.  [int] is Python's [int] on a text, [None] when it raises
    [ValueError]. *)
Record Env := {
  now : Z;
  int : string → option Z;
  reverse : Route → string;
  CommentEditForm : gmap string string → option string;
  PostEditForm : gmap string string → Post.t → option Post.t
}.

Record EmailMessage := {
  subject : string;
  message : string;
  from_email : string;
  recipient_list : list string
}.

(** The context a template is rendered with. *)
Inductive Context :=
| ListContext (object_list : list Annotated) (page_obj : Page Annotated)
| ProfileContext (profile : Instance User.t) (object_list : list Annotated)
    (page_obj : Page Annotated) (total_posts : nat)
| DetailContext (object : Annotated) (flag : bool)
    (comments : list (Instance Comment.t))
| PostFormContext (object : Instance Post.t) (data : option (gmap string string))
| CommentFormContext (object : option (Instance Comment.t))
    (data : option (gmap string string)).

Inductive Response :=
| TemplateResponse (template_name : string) (context : Context)
| HttpResponseRedirect (to : Route)
| HttpResponseOptions
| HttpResponseNotAllowed
| HttpResponseNotFound
| HttpResponseServerError (e : Exception).

(** The state a request runs against: the stored tables, the messages handed
    to [send_mail] so far (what the mail backend does with a message is not
    modelled), and whether the storage accepts a write; when it does not,
    saving or deleting raises [DatabaseError]. *)
Record World := {
  db : Store;
  outbox : list EmailMessage;
  writable : bool
}.

Definition M (A : Type) : Type := World → Result A * World.

Definition ret {A} (a : A) : M A := λ w, (Ok a, w).
Definition raise {A} (e : Exception) : M A := λ w, (Raise e, w).
Definition bind {A B} (m : M A) (k : A → M B) : M B :=
  λ w, match m w with
       | (Ok a, w') => k a w'
       | (Raise e, w') => (Raise e, w')
       end.
(** A read of the stored tables. *)
Definition query {A} (q : Store → Result A) : M A := λ w, (q (db w), w).

Notation "'do' x <- m ; k" := (bind m (λ x, k))
  (at level 10, x name, m at level 100, k at level 200).

Definition View := HttpRequest → M Response.

(** The request handler around a view: [Http404] becomes the not-found
    response, any other exception a server error. *)
Definition respond (v : View) (request : HttpRequest) (w : World) : Response * World :=
  match v request w with
  | (Ok r, w') => (r, w')
  | (Raise Http404, w') => (HttpResponseNotFound, w')
  | (Raise e, w') => (HttpResponseServerError e, w')
  end.

(** *** Storage writes *)

Definition set_posts (s : Store) (t : gmap Z Post.t) : Store :=
  {| users := users s; categories := categories s; posts := t; comments := comments s |}.
Definition set_comments (s : Store) (t : gmap Z Comment.t) : Store :=
  {| users := users s; categories := categories s; posts := posts s; comments := t |}.

Definition write (f : Store → Store) : M () :=
  λ w, if writable w
       then (Ok (), {| db := f (db w); outbox := outbox w; writable := writable w |})
       else (Raise DatabaseError, w).

(** The key an insert gives a new row: one past the largest key in use.  The
    database draws its keys from a sequence and never hands out a key twice;
    what the model keeps of that is that the key is not in use. *)
Definition next_pk {A} (table : gmap Z A) : Z :=
  foldr Z.max 0 (map_to_list table).*1 + 1.

(** [send_mail(subject, message, from_email, recipient_list,
    fail_silently=True)]. *)
Definition send_mail (m : EmailMessage) : M () :=
  λ w, (Ok (), {| db := db w; outbox := outbox w ++ [m]; writable := writable w |}).

(** *** Generic view machinery *)

(** [View.dispatch]: the handler of the request method when the view has
    one; [head] is [get]. *)
Definition dispatch (get post put delete : option View) : View :=
  λ request,
    let run h := match h with Some v => v request | None => ret HttpResponseNotAllowed end in
    match method request with
    | Method.GET | Method.HEAD => run get
    | Method.POST => run post
    | Method.PUT => run put
    | Method.DELETE => run delete
    | Method.OPTIONS => ret HttpResponseOptions
    | Method.PATCH | Method.TRACE => ret HttpResponseNotAllowed
    end.

(** [LoginRequiredMixin.dispatch]. *)
Definition LoginRequiredMixin (super : View) : View :=
  λ request,
    if negb (is_authenticated (user request))
    then ret (HttpResponseRedirect (login (full_path request)))
    else super request.

(** [SingleObjectMixin.get_object] on a query set and the key of the URL. *)
Definition get_object {A} (pk_of : A → Z) (queryset : list A) (k : Z) : Result A :=
  match get (filter (λ o, pk_of o = k) queryset) with
  | Raise DoesNotExist => Raise Http404
  | r => r
  end.

(** ** blog/views.py *)

(** Modelled from the spec: the query set method [with_comment_count] of
    [blog/models.py], which is not among the sources.  The comment count is a
    derived attribute recomputed by every query that needs it. *)
Definition with_comment_count (db : Store) (qs : list Annotated) : list Annotated :=
  (λ a, annotate db (obj a)) <$> qs.

Definition filter_pk (post_id : Z) (qs : list Annotated) : list Annotated :=
  filter (λ a, pk (obj a) = post_id) qs.

Definition filter_author (author : Instance User.t) (qs : list Annotated) : list Annotated :=
  filter (λ a, pk (Post.author (row (obj a))) = pk author) qs.

Section views.
Variable env : Env.

(** *** MainPostListView *)

Definition MainPostListView_get_queryset (db : Store) : list Annotated :=
  with_comment_count db (post_published_query db (now env)).

Definition MainPostListView_get : View :=
  λ request,
    do object_list <- query (λ db, Ok (MainPostListView_get_queryset db));
    do page_obj <- query (λ db,
      get_paginated_page (int env) (MainPostListView_get_queryset db) (GET request !! "page") 10);
    ret (TemplateResponse "blog/index.html" (ListContext object_list page_obj)).

Definition MainPostListView : View :=
  dispatch (Some MainPostListView_get) None None None.

(** *** UserPostsListView *)

(** [get_queryset] returns the author it resolved ([self.author]) with the
    query set. *)
Definition UserPostsListView_get_queryset (username : string) (request : HttpRequest)
    (db : Store) : Result (Instance User.t * list Annotated) :=
  rbind (get_object_or_404 (users db) (λ u, User.username (row u) = username))
    (λ author,
      let queryset :=
        if user_eq author (user request)
        then filter_author author (post_all_query db)
        else filter_author author (MainPostListView_get_queryset db) in
      Ok (author, with_comment_count db queryset)).

Definition UserPostsListView_get (username : string) : View :=
  λ request,
    do q <- query (UserPostsListView_get_queryset username request);
    let object_list := q.2 in
    do q <- query (UserPostsListView_get_queryset username request);
    do _ <- query (λ db, get_paginated_page (int env) q.2 (GET request !! "page") 10);
    do q <- query (UserPostsListView_get_queryset username request);
    let author := q.1 in
    do page_obj <- query (λ db, get_paginated_page (int env) q.2 (GET request !! "page") 10);
    do total_posts <- query (λ db,
      if user_eq author (user request)
      then Ok (length (filter_author author (post_all_query db)))
      else Ok (length (filter_author author (post_published_query db (now env)))));
    ret (TemplateResponse "blog/profile.html"
           (ProfileContext author object_list page_obj total_posts)).

Definition UserPostsListView (username : string) : View :=
  dispatch (Some (UserPostsListView_get username)) None None None.

(** *** PostDetailView *)

(** [get_queryset] returns [self.post_data] with the query set. *)
Definition PostDetailView_get_queryset (post_id : Z) (request : HttpRequest)
    (db : Store) : Result (Instance Post.t * list Annotated) :=
  rbind (get_object_or_404 (posts db) (λ o, pk o = post_id)) (λ post_data,
    if user_eq (Post.author (row post_data)) (user request)
    then Ok (post_data, with_comment_count db (filter_pk post_id (post_all_query db)))
    else Ok (post_data,
             with_comment_count db (filter_pk post_id (post_published_query db (now env))))).

Definition check_post_data (post_data : Instance Post.t) : bool :=
  Post.is_published (row post_data)
  && bool_decide (Post.pub_date (row post_data) ≤ now env)
  && Category.is_published (row (Post.category (row post_data))).

Definition PostDetailView_get (post_id : Z) : View :=
  λ request,
    do q <- query (PostDetailView_get_queryset post_id request);
    do object <- query (λ db, get_object (λ a, pk (obj a)) q.2 post_id);
    do comments <- query (λ db,
      Ok (filter (λ c, Comment.post (row c) = pk (obj object)) (objects (comments db))));
    ret (TemplateResponse "blog/detail.html"
           (DetailContext object (check_post_data q.1) comments)).

Definition PostDetailView (post_id : Z) : View :=
  dispatch (Some (PostDetailView_get post_id)) None None None.

(** *** PostUpdateView *)

Definition PostUpdateView_get (post_id : Z) : View :=
  λ request,
    do object <- query (λ db, get_object pk (objects (posts db)) post_id);
    ret (TemplateResponse "blog/create.html" (PostFormContext object None)).

Definition PostUpdateView_post (post_id : Z) : View :=
  λ request,
    do object <- query (λ db, get_object pk (objects (posts db)) post_id);
    match PostEditForm env (POST request) (row object) with
    | Some cleaned =>
        do _ <- write (λ s, set_posts s (<[pk object := cleaned]> (posts s)));
        ret (HttpResponseRedirect (post_detail post_id))
    | None =>
        ret (TemplateResponse "blog/create.html"
               (PostFormContext object (Some (POST request))))
    end.

Definition PostUpdateView (post_id : Z) : View :=
  λ request,
    do object <- query (λ db, get_object pk (objects (posts db)) post_id);
    if negb (user_eq (Post.author (row object)) (user request))
    then ret (HttpResponseRedirect (post_detail post_id))
    else LoginRequiredMixin
           (dispatch (Some (PostUpdateView_get post_id))
                     (Some (PostUpdateView_post post_id))
                     (Some (PostUpdateView_post post_id)) None) request.

(** *** PostDeleteView *)

Definition PostDeleteView_get (post_id : Z) : View :=
  λ request,
    do object <- query (λ db, get_object pk (objects (posts db)) post_id);
    ret (TemplateResponse "blog/create.html" (PostFormContext object None)).

(** Deleting a post removes its comments with it. *)
Definition delete_post (k : Z) (s : Store) : Store :=
  set_comments (set_posts s (delete k (posts s)))
    (filter (λ kc, Comment.post kc.2 ≠ k) (comments s)).

Definition PostDeleteView_delete (post_id : Z) : View :=
  λ request,
    do object <- query (λ db, get_object pk (objects (posts db)) post_id);
    let success_url := profile (user_str (user request)) in
    do _ <- write (delete_post (pk object));
    ret (HttpResponseRedirect success_url).

Definition PostDeleteView (post_id : Z) : View :=
  λ request,
    do object <- query (λ db, get_object pk (objects (posts db)) post_id);
    if negb (user_eq (Post.author (row object)) (user request))
    then ret (HttpResponseRedirect (post_detail post_id))
    else LoginRequiredMixin
           (dispatch (Some (PostDeleteView_get post_id))
                     (Some (PostDeleteView_delete post_id))
                     None
                     (Some (PostDeleteView_delete post_id))) request.

(** *** CommentCreateView *)

(** [request.build_absolute_uri(location)] for a path. *)
Definition build_absolute_uri (request : HttpRequest) (location : string) : string :=
  scheme request +:+ "://" +:+ host request +:+ location.

Definition newline : string := String "010"%char EmptyString.

Definition send_author_email (post_id : Z) (post_data : Instance Post.t)
    (request : HttpRequest) : M () :=
  let post_url := build_absolute_uri request (reverse env (post_detail post_id)) in
  let recipient_email := User.email (row (Post.author (row post_data))) in
  let subject := "New comment" in
  let message :=
    "Пользователь " +:+ user_str (user request) +:+ " добавил "
    +:+ "комментарий к посту " +:+ Post.title (row post_data) +:+ "." +:+ newline
    +:+ "Читать комментарий " +:+ post_url in
  send_mail {| subject := subject;
               message := message;
               from_email := "from@example.com";
               recipient_list := [recipient_email] |}.

(** [form.save()] for a new comment. *)
Definition create_comment (c : Comment.t) : M () :=
  write (λ s, set_comments s (<[next_pk (comments s) := c]> (comments s))).

Definition CommentCreateView_form_valid (post_id : Z) (post_data : Instance Post.t)
    (cleaned_text : string) : View :=
  λ request,
    match user request with
    | AnonymousUser => raise ValueError
    | Authenticated u =>
        let instance := {| Comment.author := u;
                           Comment.post := pk post_data;
                           Comment.text := cleaned_text |} in
        do _ <- (if negb (user_eq (Post.author (row post_data)) (user request))
                 then send_author_email post_id post_data request
                 else ret ());
        do _ <- create_comment instance;
        ret (HttpResponseRedirect (post_detail post_id))
    end.

Definition CommentCreateView_get : View :=
  λ request, ret (TemplateResponse "blog/comment.html" (CommentFormContext None None)).

Definition CommentCreateView_post (post_id : Z) (post_data : Instance Post.t) : View :=
  λ request,
    match CommentEditForm env (POST request) with
    | Some cleaned_text => CommentCreateView_form_valid post_id post_data cleaned_text request
    | None =>
        ret (TemplateResponse "blog/comment.html"
               (CommentFormContext None (Some (POST request))))
    end.

Definition CommentCreateView (post_id : Z) : View :=
  λ request,
    do post_data <- query (λ db, get_post_data db (now env) post_id);
    LoginRequiredMixin
      (dispatch (Some CommentCreateView_get)
                (Some (CommentCreateView_post post_id post_data))
                (Some (CommentCreateView_post post_id post_data)) None) request.

(** *** CommentUpdateView and CommentDeleteView *)

(** Modelled from the spec: [CommentMixinView] of [core/mixins.py], which is
    not among the sources.  Updating or deleting a comment requires
    authentication and ownership: an unauthenticated viewer is sent to the
    login page; the comment is resolved within its parent post; a viewer
    who is not the comment's author is redirected to the detail page of that
    post instead of the mutation. *)
Definition CommentMixinView_get_object (post_id comment_id : Z) (db : Store)
    : Result (Instance Comment.t) :=
  get_object_or_404 (comments db)
    (λ c, pk c = comment_id ∧ Comment.post (row c) = post_id).

Definition CommentMixinView (post_id comment_id : Z) (super : View) : View :=
  LoginRequiredMixin (λ request,
    do comment <- query (CommentMixinView_get_object post_id comment_id);
    if negb (user_eq (Comment.author (row comment)) (user request))
    then ret (HttpResponseRedirect (post_detail post_id))
    else super request).

Definition CommentUpdateView_get (post_id comment_id : Z) : View :=
  λ request,
    do object <- query (CommentMixinView_get_object post_id comment_id);
    ret (TemplateResponse "blog/comment.html" (CommentFormContext (Some object) None)).

Definition CommentUpdateView_post (post_id comment_id : Z) : View :=
  λ request,
    do object <- query (CommentMixinView_get_object post_id comment_id);
    match CommentEditForm env (POST request) with
    | Some cleaned_text =>
        let updated := {| Comment.author := Comment.author (row object);
                          Comment.post := Comment.post (row object);
                          Comment.text := cleaned_text |} in
        do _ <- write (λ s, set_comments s (<[pk object := updated]> (comments s)));
        ret (HttpResponseRedirect (post_detail post_id))
    | None =>
        ret (TemplateResponse "blog/comment.html"
               (CommentFormContext (Some object) (Some (POST request))))
    end.

Definition CommentUpdateView (post_id comment_id : Z) : View :=
  CommentMixinView post_id comment_id
    (dispatch (Some (CommentUpdateView_get post_id comment_id))
              (Some (CommentUpdateView_post post_id comment_id))
              (Some (CommentUpdateView_post post_id comment_id)) None).

Definition CommentDeleteView_delete (post_id comment_id : Z) : View :=
  λ request,
    do object <- query (CommentMixinView_get_object post_id comment_id);
    do _ <- write (λ s, set_comments s (delete (pk object) (comments s)));
    ret (HttpResponseRedirect (post_detail post_id)).

Definition CommentDeleteView (post_id comment_id : Z) : View :=
  CommentMixinView post_id comment_id
    (dispatch (Some (CommentUpdateView_get post_id comment_id))
              (Some (CommentDeleteView_delete post_id comment_id))
              None
              (Some (CommentDeleteView_delete post_id comment_id))).

(** *** The update and delete routes *)

Inductive Resource :=
| PostResource (post_id : Z)
| CommentResource (post_id comment_id : Z).

Inductive Action := Update | Delete.

Definition mutation_view (a : Action) (r : Resource) : View :=
  match a, r with
  | Update, PostResource post_id => PostUpdateView post_id
  | Delete, PostResource post_id => PostDeleteView post_id
  | Update, CommentResource post_id comment_id => CommentUpdateView post_id comment_id
  | Delete, CommentResource post_id comment_id => CommentDeleteView post_id comment_id
  end.
End views.

(** The stored author of a resource, when the resource exists; a comment is
    addressed through its parent post. *)
Definition resource_author (db : Store) (r : Resource) : option (Instance User.t) :=
  match r with
  | PostResource post_id => Post.author <$> posts db !! post_id
  | CommentResource post_id comment_id =>
      c ← comments db !! comment_id;
      if bool_decide (Comment.post c = post_id) then Some (Comment.author c) else None
  end.

(** The detail page of a resource: the post's page, for a comment the page of
    its parent post. *)
Definition detail_page (r : Resource) : Route :=
  match r with
  | PostResource post_id => post_detail post_id
  | CommentResource post_id _ => post_detail post_id
  end.

(** ** Notions of the statements *)

(** The viewer is the user [a]: an authenticated user with the key of [a]. *)
Definition is_user (v : RequestUser) (a : Instance User.t) : Prop :=
  ∃ u, v = Authenticated u ∧ pk u = pk a.

(** The response is the detail page of the post [P]. *)
Definition is_detail_page_of (P : Instance Post.t) (r : Response) : Prop :=
  ∃ n flag comments,
    r = TemplateResponse "blog/detail.html" (DetailContext (annotated P n) flag comments).

(** The text [s] contains the text [t]. *)
Definition contains (s t : string) : Prop := ∃ pre suf, s = pre +:+ t +:+ suf.

(** The message of [send_author_email]. *)
Definition notification (env : Env) (k : Z) (P : Post.t) (request : HttpRequest)
    : EmailMessage :=
  {| subject := "New comment";
     message :=
       "Пользователь " +:+ user_str (user request) +:+ " добавил "
       +:+ "комментарий к посту " +:+ Post.title P +:+ "." +:+ newline
       +:+ "Читать комментарий "
       +:+ build_absolute_uri request (reverse env (post_detail k));
     from_email := "from@example.com";
     recipient_list := [User.email (row (Post.author P))] |}.

(** ** A reading of decimal numerals *)

(** The reading the examples give to [int]: what Python's [int(s)] returns
    for a text [s] of ASCII characters.  White space around the numeral is
    dropped (the characters 9 to 13 and 32), a sign may come first, then
    decimal digits, with single underscores allowed between digits; a
    numeral of more than 4300 digits is refused.  [None] stands for
    [ValueError].  A text with characters outside ASCII is not read. *)
Definition is_space (c : ascii) : bool :=
  let n := nat_of_ascii c in
  bool_decide (n = 32 ∨ (9 ≤ n ∧ n ≤ 13))%nat.

Definition digit_of (c : ascii) : option Z :=
  let n := nat_of_ascii c in
  if bool_decide (48 ≤ n ∧ n ≤ 57)%nat then Some (Z.of_nat n - 48) else None.

Fixpoint lstrip (s : list ascii) : list ascii :=
  match s with
  | c :: s' => if is_space c then lstrip s' else s
  | [] => []
  end.

Definition strip (s : list ascii) : list ascii :=
  rev (lstrip (rev (lstrip s))).

(** The digits after the first one; [after_digit] tells whether the previous
    character was a digit (an underscore must sit between two digits). *)
Fixpoint digits_from (acc : Z) (after_digit : bool) (s : list ascii) : option Z :=
  match s with
  | [] => if after_digit then Some acc else None
  | c :: s' =>
      match digit_of c with
      | Some d => digits_from (10 * acc + d) true s'
      | None =>
          if bool_decide (c = "_"%char) && after_digit
          then digits_from acc false s'
          else None
      end
  end.

Definition unsigned_int (s : list ascii) : option Z :=
  match s with
  | c :: s' =>
      match digit_of c with
      | Some d => digits_from d true s'
      | None => None
      end
  | [] => None
  end.

Definition is_ascii (c : ascii) : bool := bool_decide (nat_of_ascii c < 128)%nat.

Definition py_int (s : string) : option Z :=
  let text := strip (list_ascii_of_string s) in
  if negb (forallb is_ascii (list_ascii_of_string s)) then None
  else if bool_decide (4300 < length (filter (λ c, is_Some (digit_of c)) text))%nat then None
  else
    match text with
    | "-"%char :: s' => Z.opp <$> unsigned_int s'
    | "+"%char :: s' => unsigned_int s'
    | s' => unsigned_int s'
    end.

(** ** A small blog *)

Module Example.
Definition alice : Instance User.t :=
  instance 1 {| User.username := "alice"; User.email := "alice@example.com" |}.
Definition bob : Instance User.t :=
  instance 2 {| User.username := "bob"; User.email := "bob@example.com" |}.

Definition travel : Instance Category.t :=
  instance 1 {| Category.slug := "travel"; Category.is_published := true |}.
Definition hidden : Instance Category.t :=
  instance 2 {| Category.slug := "hidden"; Category.is_published := false |}.

Definition mk_post (a : Instance User.t) (c : Instance Category.t) (t : string)
    (d : Z) (p : bool) : Post.t :=
  {| Post.author := a; Post.category := c; Post.location := None;
     Post.title := t; Post.text := "..."; Post.pub_date := d;
     Post.is_published := p |}.

(** Post 1 is public; post 2 is a draft; post 3 sits in an unpublished
    category; post 4 is scheduled after the current time. *)
Definition public_post : Post.t := mk_post alice travel "Lisbon" 100 true.
Definition draft_post : Post.t := mk_post alice travel "Porto" 200 false.
Definition hidden_post : Post.t := mk_post bob hidden "Faro" 300 true.
Definition future_post : Post.t := mk_post bob travel "Braga" 5000 true.

Definition first_comment : Comment.t :=
  {| Comment.author := bob; Comment.post := 1; Comment.text := "Nice" |}.

Definition store : Store :=
  {| users := <[1 := row alice]> (<[2 := row bob]> ∅);
     categories := <[1 := row travel]> (<[2 := row hidden]> ∅);
     posts := <[1 := public_post]> (<[2 := draft_post]>
                (<[3 := hidden_post]> (<[4 := future_post]> ∅)));
     comments := <[1 := first_comment]> ∅ |}.

Definition world : World := {| db := store; outbox := []; writable := true |}.
Definition broken_world : World := {| db := store; outbox := []; writable := false |}.

Definition env : Env :=
  {| now := 1000;
     int := py_int;
     reverse := λ r, match r with
                     | post_detail post_id => "/posts/" +:+ pretty post_id +:+ "/"
                     | profile username => "/profile/" +:+ username +:+ "/"
                     | login next => "/auth/login/?next=" +:+ next
                     end;
     CommentEditForm := λ data,
       match data !! "text" with
       | Some t => if bool_decide (t = "") then None else Some t
       | None => None
       end;
     PostEditForm := λ data p,
       match data !! "title" with
       | Some t =>
           if bool_decide (t = "") then None
           else Some {| Post.author := Post.author p; Post.category := Post.category p;
                        Post.location := Post.location p; Post.title := t;
                        Post.text := Post.text p; Post.pub_date := Post.pub_date p;
                        Post.is_published := Post.is_published p |}
       | None => None
       end |}.

Definition request (m : Method.t) (u : RequestUser) (path : string)
    (data : gmap string string) : HttpRequest :=
  {| method := m; user := u; GET := ∅; POST := data;
     scheme := "https"; host := "blog.example.com"; full_path := path |}.

(** Twenty-five items, numbered from 1. *)
Definition items : list nat := seq 1 25.
End Example.

(** ** Further views of blog/views.py *)

Section category_views.
Variable env : Env.

(** *** CategoryPostListView *)

(** [get_queryset] returns the category it resolved ([self.category]) with
    the query set. *)
Definition CategoryPostListView_get_queryset (category_slug : string) (db : Store)
    : Result (Instance Category.t * list Annotated) :=
  rbind (get_object_or_404 (categories db)
           (λ c, Category.slug (row c) = category_slug
                 ∧ Category.is_published (row c) = true))
    (λ category,
      Ok (category,
          with_comment_count db
            (filter (λ a, pk (Post.category (row (obj a))) = pk category)
               (MainPostListView_get_queryset env db)))).

(** The context of the category page: [category], [object_list] and
    [page_obj]. *)
Record CategoryPage := {
  page_category : Instance Category.t;
  page_object_list : list Annotated;
  page_page_obj : Page Annotated
}.

(** [get] with [get_context_data]: the query set is computed for the object
    list, once more by the inherited [get_context_data] for its page, and a
    third time for the page that replaces it. *)
Definition CategoryPostListView_get_context_data (category_slug : string)
    (request : HttpRequest) (db : Store) : Result CategoryPage :=
  rbind (CategoryPostListView_get_queryset category_slug db) (λ q0,
  rbind (CategoryPostListView_get_queryset category_slug db) (λ q1,
  rbind (get_paginated_page (int env) q1.2 (GET request !! "page") 10) (λ _,
  let category := q1.1 in
  rbind (CategoryPostListView_get_queryset category_slug db) (λ q2,
  rbind (get_paginated_page (int env) q2.2 (GET request !! "page") 10) (λ page_obj,
  Ok {| page_category := category;
        page_object_list := q0.2;
        page_page_obj := page_obj |}))))).
End category_views.

(** *** PostCreateView *)

(** [form.instance.author = user]. *)
Definition set_author (p : Post.t) (u : Instance User.t) : Post.t :=
  {| Post.author := u; Post.category := Post.category p;
     Post.location := Post.location p; Post.title := Post.title p;
     Post.text := Post.text p; Post.pub_date := Post.pub_date p;
     Post.is_published := Post.is_published p |}.

(** [form_valid(form)], where [form_instance] is the instance the valid form
    holds: the author is set, the post is inserted, and the response is the
    redirect of [get_success_url]. *)
Definition PostCreateView_form_valid (form_instance : Post.t) : View :=
  λ request,
    match user request with
    | AnonymousUser => raise ValueError
    | Authenticated u =>
        do _ <- write (λ s, set_posts s
                          (<[next_pk (posts s) := set_author form_instance u]> (posts s)));
        ret (HttpResponseRedirect (profile (user_str (user request))))
    end.

(** *** The list views, with the clock read by each query *)

(** Every call of [post_published_query] reads [timezone.now()] anew, and a
    list view builds its query set more than once in a request.  In the
    views below [clock i] is the reading of the [i]-th call of
    [post_published_query] within the request, counted from 0; with the
    clock frozen at [now env] they are the views above. *)
Definition at_time (env : Env) (t : Z) : Env :=
  {| now := t; int := int env; reverse := reverse env;
     CommentEditForm := CommentEditForm env; PostEditForm := PostEditForm env |}.

Section clocked_views.
Variable env : Env.
Variable clock : nat → Z.

(** [MainPostListView]: [get] builds the object list with the first reading,
    [get_context_data] the page with the second. *)
Definition MainPostListView_get_clocked : View :=
  λ request,
    do object_list <- query (λ db,
      Ok (MainPostListView_get_queryset (at_time env (clock 0%nat)) db));
    do page_obj <- query (λ db,
      get_paginated_page (int env)
        (MainPostListView_get_queryset (at_time env (clock 1%nat)) db)
        (GET request !! "page") 10);
    ret (TemplateResponse "blog/index.html" (ListContext object_list page_obj)).

Definition MainPostListView_clocked : View :=
  dispatch (Some MainPostListView_get_clocked) None None None.

(** [CategoryPostListView]: three calls of [get_queryset], one reading
    each. *)
Definition CategoryPostListView_get_context_data_clocked (category_slug : string)
    (request : HttpRequest) (db : Store) : Result CategoryPage :=
  rbind (CategoryPostListView_get_queryset (at_time env (clock 0%nat)) category_slug db)
    (λ q0,
  rbind (CategoryPostListView_get_queryset (at_time env (clock 1%nat)) category_slug db)
    (λ q1,
  rbind (get_paginated_page (int env) q1.2 (GET request !! "page") 10) (λ _,
  let category := q1.1 in
  rbind (CategoryPostListView_get_queryset (at_time env (clock 2%nat)) category_slug db)
    (λ q2,
  rbind (get_paginated_page (int env) q2.2 (GET request !! "page") 10) (λ page_obj,
  Ok {| page_category := category;
        page_object_list := q0.2;
        page_page_obj := page_obj |}))))).

(** [UserPostsListView]: for a viewer who is not the profile user three calls
    of [get_queryset] with one reading each and a fourth reading for the
    total; for the profile user [post_all_query] is used and the clock is not
    read. *)
Definition UserPostsListView_get_clocked (username : string) : View :=
  λ request,
    do q <- query (UserPostsListView_get_queryset (at_time env (clock 0%nat))
                     username request);
    let object_list := q.2 in
    do q <- query (UserPostsListView_get_queryset (at_time env (clock 1%nat))
                     username request);
    do _ <- query (λ db, get_paginated_page (int env) q.2 (GET request !! "page") 10);
    do q <- query (UserPostsListView_get_queryset (at_time env (clock 2%nat))
                     username request);
    let author := q.1 in
    do page_obj <- query (λ db,
      get_paginated_page (int env) q.2 (GET request !! "page") 10);
    do total_posts <- query (λ db,
      if user_eq author (user request)
      then Ok (length (filter_author author (post_all_query db)))
      else Ok (length (filter_author author (post_published_query db (clock 3%nat)))));
    ret (TemplateResponse "blog/profile.html"
           (ProfileContext author object_list page_obj total_posts)).

Definition UserPostsListView_clocked (username : string) : View :=
  dispatch (Some (UserPostsListView_get_clocked username)) None None None.
End clocked_views.


(** * Properties *)

(** ** Tables and query sets *)

Lemma elem_of_objects {A} (table : gmap Z A) (o : Instance A) :
  o ∈ objects table ↔ table !! pk o = Some (row o).
Proof.
  unfold objects. rewrite list_elem_of_fmap. split.
  - intros ([k r] & -> & Hin). by apply elem_of_map_to_list in Hin.
  - intros Hlk. exists (pk o, row o). split; [by destruct o|].
    by apply elem_of_map_to_list.
Qed.

Lemma NoDup_pk_objects {A} (table : gmap Z A) : NoDup (pk <$> objects table).
Proof.
  unfold objects. rewrite <- list_fmap_compose.
  apply (NoDup_fst_map_to_list table).
Qed.

Lemma filter_none {A} (P : A → Prop) `{∀ x, Decision (P x)} (l : list A) :
  (∀ x, x ∈ l → ¬ P x) → filter P l = [].
Proof.
  induction l as [|y l IH]; intros Hl; [done|].
  rewrite filter_cons_False; [|apply Hl; left].
  apply IH. intros x Hx. apply Hl. by right.
Qed.

(** In a list without two elements of one key, the elements of a key that
    satisfy a lookup are the one element of that key, if it satisfies it. *)
Lemma filter_key_unique {A} (key : A → Z) (P : A → Prop) `{∀ x, Decision (P x)}
    (l : list A) (x : A) :
  NoDup (key <$> l) → x ∈ l →
  filter (λ o, key o = key x ∧ P o) l = if decide (P x) then [x] else [].
Proof.
  induction l as [|y l IH]; intros Hnd Hin; [by apply elem_of_nil in Hin|].
  rewrite fmap_cons in Hnd. apply NoDup_cons in Hnd as [Hy Hnd].
  apply elem_of_cons in Hin as [->|Hin].
  - rewrite filter_cons.
    assert (filter (λ o, key o = key y ∧ P o) l = []) as ->.
    { apply filter_none. intros z Hz [Hk _].
      apply Hy. rewrite <- Hk. apply list_elem_of_fmap. eauto. }
    destruct (decide (P y)); [rewrite decide_True|rewrite decide_False]; tauto.
  - rewrite filter_cons, decide_False; [by apply IH|].
    intros [Hk _]. apply Hy. rewrite Hk. apply list_elem_of_fmap. eauto.
Qed.

Lemma filter_key_absent {A} (key : A → Z) (P : A → Prop) `{∀ x, Decision (P x)}
    (l : list A) (k : Z) :
  k ∉ key <$> l → filter (λ o, key o = k ∧ P o) l = [].
Proof.
  intros Hk. apply filter_none. intros z Hz [<- _].
  apply Hk, list_elem_of_fmap. eauto.
Qed.

Lemma filter_objects_pk {A} (table : gmap Z A) (k : Z)
    (P : Instance A → Prop) `{∀ x, Decision (P x)} :
  filter (λ o, pk o = k ∧ P o) (objects table) =
  match table !! k with
  | Some r => if decide (P (instance k r)) then [instance k r] else []
  | None => []
  end.
Proof.
  destruct (table !! k) as [r|] eqn:Hlk.
  - apply (filter_key_unique pk P (objects table) (instance k r)).
    + apply NoDup_pk_objects.
    + by apply elem_of_objects.
  - apply filter_key_absent.
    intros (o & -> & Ho)%list_elem_of_fmap. apply elem_of_objects in Ho. congruence.
Qed.

Lemma get_object_or_404_lookup {A} (table : gmap Z A) (k : Z)
    (P : Instance A → Prop) `{∀ x, Decision (P x)} :
  get_object_or_404 table (λ o, pk o = k ∧ P o) =
  match table !! k with
  | Some r => if decide (P (instance k r)) then Ok (instance k r) else Raise Http404
  | None => Raise Http404
  end.
Proof.
  unfold get_object_or_404. rewrite filter_objects_pk.
  destruct (table !! k) as [r|]; [|done]. by case_decide.
Qed.

Lemma get_object_or_404_pk {A} (table : gmap Z A) (k : Z) :
  get_object_or_404 table (λ o, pk o = k) =
  match table !! k with
  | Some r => Ok (instance k r)
  | None => Raise Http404
  end.
Proof.
  transitivity (get_object_or_404 table (λ o, pk o = k ∧ True)).
  - unfold get_object_or_404.
    by rewrite (list_filter_iff (λ o, pk o = k) (λ o, pk o = k ∧ True)) by tauto.
  - rewrite get_object_or_404_lookup. by destruct (table !! k).
Qed.

Lemma elem_of_post_all_query (db : Store) (a : Annotated) :
  a ∈ post_all_query db ↔ ∃ o, a = annotate db o ∧ posts db !! pk o = Some (row o).
Proof.
  unfold post_all_query, order_by_pub_date_desc.
  rewrite merge_sort_Permutation, list_elem_of_fmap.
  by setoid_rewrite elem_of_objects.
Qed.

Lemma elem_of_post_published_query (db : Store) (now : Z) (a : Annotated) :
  a ∈ post_published_query db now ↔
  published now (row (obj a)) ∧ a ∈ post_all_query db.
Proof.
  unfold post_published_query.
  apply (list_elem_of_filter (λ a, published now (row (obj a)))).
Qed.

(** The posts of a query set, without the annotation. *)
Lemma elem_of_obj_fmap (qs : list Annotated) (o : Instance Post.t) :
  o ∈ obj <$> qs ↔ ∃ a, obj a = o ∧ a ∈ qs.
Proof.
  rewrite list_elem_of_fmap. split.
  - intros (a & -> & Hin). by exists a.
  - intros (a & <- & Hin). by exists a.
Qed.

Lemma filter_fmap {A B} (f : A → B) (P : B → Prop) `{∀ y, Decision (P y)} (l : list A) :
  filter P (f <$> l) = f <$> filter (λ x, P (f x)) l.
Proof.
  induction l as [|x l IH]; [done|].
  rewrite fmap_cons, !filter_cons, IH. by destruct (decide (P (f x))).
Qed.

(** The rows of one key in the two query sets of [core/utils.py]. *)
Lemma filter_pk_post_all_query (db : Store) (k : Z) :
  filter_pk k (post_all_query db) =
  match posts db !! k with
  | Some P => [annotate db (instance k P)]
  | None => []
  end.
Proof.
  assert (filter_pk k (post_all_query db)
          ≡ₚ annotate db <$> filter (λ o, pk o = k ∧ True) (objects (posts db))) as Hperm.
  { unfold filter_pk, post_all_query, order_by_pub_date_desc.
    rewrite merge_sort_Permutation, filter_fmap. simpl.
    by rewrite (list_filter_iff (λ o, pk o = k) (λ o, pk o = k ∧ True)) by tauto. }
  rewrite filter_objects_pk in Hperm. destruct (posts db !! k) as [P|]; simpl in Hperm.
  - by apply Permutation_singleton_r.
  - by apply Permutation_nil_r.
Qed.

Lemma filter_pk_post_published_query (db : Store) (now : Z) (k : Z) :
  filter_pk k (post_published_query db now) =
  match posts db !! k with
  | Some P => if decide (published now P) then [annotate db (instance k P)] else []
  | None => []
  end.
Proof.
  unfold filter_pk, post_published_query.
  rewrite list_filter_filter.
  rewrite (list_filter_iff _ (λ a, published now (row (obj a)) ∧ pk (obj a) = k)) by tauto.
  rewrite <- (list_filter_filter (λ a, published now (row (obj a)))).
  fold (filter_pk k (post_all_query db)). rewrite filter_pk_post_all_query.
  destruct (posts db !! k) as [P|]; [|done].
  rewrite filter_cons. simpl. by destruct (decide (published now P)).
Qed.

(** ** C1 *)

(** C1. A stored post [P] is a member of the sequence [post_published_query]
    returns if and only if its own published flag is true, its publication
    time is at or before the current time, and the published flag of its
    category is true. *)
Theorem C1_published_query_membership (db : Store) (now : Z) (k : Z) (P : Post.t) :
  posts db !! k = Some P →
  (instance k P ∈ obj <$> post_published_query db now ↔
   Post.is_published P = true
   ∧ Post.pub_date P ≤ now
   ∧ Category.is_published (row (Post.category P)) = true).
Proof.
  intros Hstored. rewrite elem_of_obj_fmap. split.
  - intros (a & Ha & Hin). apply elem_of_post_published_query in Hin as [Hpub _].
    rewrite Ha in Hpub. unfold published in Hpub. simpl in Hpub. tauto.
  - intros (Hp & Hd & Hc). exists (annotate db (instance k P)). split; [done|].
    apply elem_of_post_published_query. split.
    + unfold published. simpl. tauto.
    + apply elem_of_post_all_query. by exists (instance k P).
Qed.

Lemma C1_witness :
  instance 1 Example.public_post
    ∈ obj <$> post_published_query Example.store 1000
  ∧ instance 2 Example.draft_post
    ∉ obj <$> post_published_query Example.store 1000.
Proof.
  split.
  - apply (C1_published_query_membership Example.store 1000 1 Example.public_post).
    + reflexivity.
    + vm_compute. repeat split; congruence.
  - intros Hin.
    apply (C1_published_query_membership Example.store 1000 2 Example.draft_post) in Hin.
    + destruct Hin as [Hp _]. vm_compute in Hp. congruence.
    + reflexivity.
Defined.

(** ** Pagination *)

Section pagination_facts.
Context {A : Type} (l : list A) (pp : Z).
Hypothesis pp_pos : 0 < pp.

Local Abbreviation p := {| paginator_object_list := l; per_page := pp |}.

(** The number of pages is at least one and is the least number of pages
    of [pp] items that hold the whole list. *)
Lemma num_pages_spec :
  ∃ np, num_pages p = Ok np ∧ 1 ≤ np
        ∧ (np - 1) * pp < Z.max 1 (count p) ≤ np * pp.
Proof using pp_pos.
  unfold num_pages. simpl. rewrite bool_decide_eq_false_2 by lia.
  eexists. split; [reflexivity|].
  pose proof (Z.div_mod (- Z.max 1 (count p)) pp ltac:(lia)) as Hdm.
  pose proof (Z.mod_pos_bound (- Z.max 1 (count p)) pp pp_pos) as Hb.
  set (q := (- Z.max 1 (count p)) `div` pp) in *.
  set (r := (- Z.max 1 (count p)) `mod` pp) in *.
  assert (1 ≤ Z.max 1 (count p)) by lia.
  split; [nia|]. split; nia.
Qed.

Lemma check_range_ok (np n : Z) :
  num_pages p = Ok np → 1 ≤ n ≤ np → check_range p n = Ok n.
Proof.
  intros Hnp Hn. unfold check_range. rewrite Hnp. simpl.
  rewrite bool_decide_eq_false_2 by lia.
  by rewrite bool_decide_eq_false_2 by lia.
Qed.

(** With at least one page, a number below 1 or past the last page is out of
    range. *)
Lemma check_range_out (np n : Z) :
  num_pages p = Ok np → 1 ≤ np → n < 1 ∨ np < n → check_range p n = Raise EmptyPage.
Proof.
  intros Hnp Hnp1 Hn. unfold check_range. rewrite Hnp. simpl.
  case_bool_decide; [done|]. rewrite bool_decide_eq_true_2 by lia.
  by rewrite bool_decide_eq_false_2 by lia.
Qed.

(** A valid page number gives the page: the [pp] items after the first
    [(n - 1) * pp], fewer on the last page. *)
Lemma page_valid (np n : Z) :
  num_pages p = Ok np → 1 ≤ n ≤ np →
  page p n = Ok {| object_list := take (Z.to_nat pp) (drop (Z.to_nat ((n - 1) * pp)) l);
                   number := n;
                   paginator := p |}.
Proof using pp_pos.
  intros Hnp Hn. unfold page. rewrite (check_range_ok np) by done. simpl.
  unfold slice. rewrite bool_decide_eq_false_2.
  2:{ unfold count. simpl. case_bool_decide; nia. }
  simpl. do 2 f_equal.
  case_bool_decide as Hlast; [|f_equal; nia].
  unfold count in *. simpl in *.
  rewrite !take_ge; [done| |]; rewrite length_drop; lia.
Qed.

(** [get_page] never raises: the page it returns has the requested number
    when that is a page, number 1 when the parameter is absent or no
    integer, and the number of the last page when the integer is below 1 or
    past the last page. *)
Lemma get_page_total (int : string → option Z) (page_number : option string) :
  ∃ np pg,
    num_pages p = Ok np ∧ 1 ≤ np
    ∧ get_page int p page_number = Ok pg
    ∧ number pg =
        match page_number ≫= int with
        | None => 1
        | Some n => if bool_decide (1 ≤ n ≤ np) then n else np
        end
    ∧ object_list pg =
        take (Z.to_nat pp) (drop (Z.to_nat ((number pg - 1) * pp)) l).
Proof using pp_pos.
  destruct num_pages_spec as (np & Hnp & Hnp1 & _).
  exists np. unfold get_page, validate_number, to_int.
  assert (∀ n, 1 ≤ n ≤ np → ∃ pg, page p n = Ok pg ∧ number pg = n
            ∧ object_list pg =
                take (Z.to_nat pp) (drop (Z.to_nat ((number pg - 1) * pp)) l))
    as Hpage.
  { intros n Hn. eexists. split; [by apply (page_valid np)|]. done. }
  destruct page_number as [s|]; simpl.
  - destruct (int s) as [n|]; simpl.
    + case_bool_decide as Hn.
      * rewrite (check_range_ok np) by done.
        destruct (Hpage n Hn) as (pg & -> & <- & Hl). by exists pg.
      * rewrite (check_range_out np) by (done || lia). rewrite Hnp. simpl.
        destruct (Hpage np) as (pg & -> & Hnum & Hl); [lia|]. by exists pg.
    + destruct (Hpage 1) as (pg & -> & Hnum & Hl); [lia|]. by exists pg.
  - destruct (Hpage 1) as (pg & -> & Hnum & Hl); [lia|]. by exists pg.
Qed.
End pagination_facts.

(** ** C6 *)

(** C6, as the code has it.  [int] stands for Python's [int], which the
    paginator applies to the page parameter: the integer it returns for a
    text, [None] when it raises [ValueError].  For every sequence of items and
    every page parameter, [get_paginated_page] with [per_page = 10] returns a
    page and never raises.  The page has the requested number when that is one
    of the pages and holds the ten items (fewer on the last page) at that
    position; a parameter that is absent or not an integer yields page 1; an
    integer out of range, below 1 as well as past the last page, yields the
    last page.  With 25 items page 1 holds items 1 to 10, page 3 holds items
    21 to 25, and page 99 yields page 3. *)
Theorem C6_pagination_clamps_to_last_page (int : string → option Z) :
  (∀ (A : Type) (l : list A) (page_number : option string),
     ∃ np pg,
       num_pages {| paginator_object_list := l; per_page := 10 |} = Ok np
       ∧ 1 ≤ np
       ∧ get_paginated_page int l page_number 10 = Ok pg
       ∧ number pg =
           match page_number ≫= int with
           | None => 1
           | Some n => if bool_decide (1 ≤ n ≤ np) then n else np
           end
       ∧ object_list pg = take 10 (drop (Z.to_nat ((number pg - 1) * 10)) l))
  ∧ (int "1" = Some 1 →
     ∃ pg, get_paginated_page int Example.items (Some "1") 10 = Ok pg
           ∧ number pg = 1 ∧ object_list pg = seq 1 10)
  ∧ (int "3" = Some 3 →
     ∃ pg, get_paginated_page int Example.items (Some "3") 10 = Ok pg
           ∧ number pg = 3 ∧ object_list pg = seq 21 5)
  ∧ (int "99" = Some 99 →
     ∃ pg, get_paginated_page int Example.items (Some "99") 10 = Ok pg
           ∧ number pg = 3 ∧ object_list pg = seq 21 5).
Proof.
  split_and!.
  - intros A l page_number. apply (get_page_total l 10). lia.
  - intros Hs. unfold get_paginated_page, get_page, validate_number, to_int.
    rewrite Hs. eexists. split; [vm_compute; reflexivity|]. by split.
  - intros Hs. unfold get_paginated_page, get_page, validate_number, to_int.
    rewrite Hs. eexists. split; [vm_compute; reflexivity|]. by split.
  - intros Hs. unfold get_paginated_page, get_page, validate_number, to_int.
    rewrite Hs. eexists. split; [vm_compute; reflexivity|]. by split.
Qed.

Lemma C6_witness :
  (∃ pg, get_paginated_page py_int Example.items (Some "1") 10 = Ok pg
         ∧ number pg = 1 ∧ object_list pg = seq 1 10)
  ∧ (∃ pg, get_paginated_page py_int Example.items (Some "3") 10 = Ok pg
           ∧ number pg = 3 ∧ object_list pg = seq 21 5)
  ∧ (∃ pg, get_paginated_page py_int Example.items (Some "99") 10 = Ok pg
           ∧ number pg = 3 ∧ object_list pg = seq 21 5).
Proof.
  destruct (C6_pagination_clamps_to_last_page py_int) as (_ & H1 & H3 & H99).
  split; [apply H1; reflexivity|]. split; [apply H3; reflexivity|apply H99; reflexivity].
Defined.

(** C6 as written does not hold: a number below the first page does not
    always yield the first page.  Python's [int] reads the text [0] as the
    integer 0, and under no reading of it as 0 does the page parameter [0]
    yield the first of the three pages of 25 items: it yields page 3, the
    last page. *)
Lemma C6_counterexample_below_first_page :
  ¬ (∃ int : string → option Z,
       int "0" = Some 0
       ∧ ∀ pg : Page nat,
           get_paginated_page int Example.items (Some "0") 10 = Ok pg → number pg = 1).
Proof.
  intros (int & H0 & Hclaim).
  specialize (Hclaim
    {| object_list := seq 21 5; number := 3;
       paginator := {| paginator_object_list := Example.items; per_page := 10 |} |}).
  discriminate Hclaim.
  unfold get_paginated_page, get_page, validate_number, to_int. rewrite H0. reflexivity.
Qed.

(** ** Viewers *)

Lemma user_eq_true (a : Instance User.t) (v : RequestUser) :
  user_eq a v = true ↔ is_user v a.
Proof.
  unfold is_user. destruct v as [|u]; simpl.
  - split; [done|]. by intros (u & ? & _).
  - unfold model_eq. rewrite bool_decide_eq_true. split.
    + intros Hpk. by exists u.
    + intros (u' & [= <-] & Hpk). done.
Qed.

Lemma user_eq_false (a : Instance User.t) (v : RequestUser) :
  user_eq a v = false ↔ ¬ is_user v a.
Proof. rewrite <- user_eq_true. by destruct (user_eq a v). Qed.

(** ** C2 *)

Lemma PostDetailView_get_queryset_stored (env : Env) (k : Z) (request : HttpRequest)
    (db : Store) (P : Post.t) :
  posts db !! k = Some P →
  PostDetailView_get_queryset env k request db =
  Ok (instance k P,
      if user_eq (Post.author P) (user request) then [annotate db (instance k P)]
      else if decide (published (now env) P) then [annotate db (instance k P)]
      else []).
Proof.
  intros Hstored. unfold PostDetailView_get_queryset.
  rewrite get_object_or_404_pk, Hstored. simpl.
  rewrite filter_pk_post_all_query, filter_pk_post_published_query, Hstored.
  destruct (user_eq _ _); [done|]. by destruct (decide (published (now env) P)).
Qed.

(** C2. For every stored post [P] and every viewer, anonymous or not, a GET
    request of the post detail route returns the page of [P] if and only if
    the viewer is the author of [P] or [P] meets the criteria of
    [post_published_query]; otherwise the response is not found (404). *)
Theorem C2_detail_page_visibility (env : Env) (request : HttpRequest) (w : World)
    (k : Z) (P : Post.t) :
  method request = Method.GET →
  posts (db w) !! k = Some P →
  let visible :=
    is_user (user request) (Post.author P)
    ∨ (Post.is_published P = true
       ∧ Post.pub_date P ≤ now env
       ∧ Category.is_published (row (Post.category P)) = true) in
  let response := (respond (PostDetailView env k) request w).1 in
  (is_detail_page_of (instance k P) response ↔ visible)
  ∧ (¬ visible → response = HttpResponseNotFound).
Proof.
  intros Hget Hstored visible response.
  assert (response =
          if user_eq (Post.author P) (user request) || bool_decide (published (now env) P)
          then TemplateResponse "blog/detail.html"
                 (DetailContext (annotate (db w) (instance k P))
                    (check_post_data env (instance k P))
                    (filter (λ c, Comment.post (row c) = k) (objects (comments (db w)))))
          else HttpResponseNotFound) as ->.
  { subst response. unfold respond, PostDetailView, dispatch. rewrite Hget.
    unfold PostDetailView_get, bind, query, ret.
    rewrite (PostDetailView_get_queryset_stored env k request (db w) P Hstored).
    simpl. destruct (user_eq (Post.author P) (user request)); simpl.
    - unfold get_object. by rewrite filter_cons_True.
    - destruct (decide (published (now env) P)) as [Hp|Hp].
      + rewrite bool_decide_eq_true_2 by done.
        unfold get_object. by rewrite filter_cons_True.
      + by rewrite bool_decide_eq_false_2. }
  assert (visible ↔
          user_eq (Post.author P) (user request) || bool_decide (published (now env) P) = true)
    as Hvisible.
  { subst visible. rewrite orb_true_iff, user_eq_true, bool_decide_eq_true.
    unfold published. tauto. }
  rewrite Hvisible.
  destruct (user_eq _ _ || bool_decide _); split.
  - split; [done|]. intros _. unfold is_detail_page_of, annotate. eauto.
  - done.
  - split; [|done]. by intros (n & flag & cs & ?).
  - done.
Qed.

Lemma C2_witness :
  is_detail_page_of (instance 2 Example.draft_post)
    (respond (PostDetailView Example.env 2)
       (Example.request Method.GET (Authenticated Example.alice) "/posts/2/" ∅)
       Example.world).1
  ∧ (respond (PostDetailView Example.env 2)
       (Example.request Method.GET (Authenticated Example.bob) "/posts/2/" ∅)
       Example.world).1 = HttpResponseNotFound.
Proof.
  split.
  - apply (C2_detail_page_visibility Example.env
             (Example.request Method.GET (Authenticated Example.alice) "/posts/2/" ∅)
             Example.world 2 Example.draft_post); [reflexivity..|].
    left. by exists Example.alice.
  - apply (C2_detail_page_visibility Example.env
             (Example.request Method.GET (Authenticated Example.bob) "/posts/2/" ∅)
             Example.world 2 Example.draft_post); [reflexivity..|].
    intros [(u & [= <-] & Hpk)|(Hp & _)]; [vm_compute in Hpk|vm_compute in Hp]; congruence.
Defined.

(** ** Comment creation *)

Lemma get_post_data_lookup (db : Store) (now : Z) (k : Z) :
  get_post_data db now k =
  match posts db !! k with
  | Some P => if decide (published now P) then Ok (instance k P) else Raise Http404
  | None => Raise Http404
  end.
Proof.
  unfold get_post_data.
  rewrite (get_object_or_404_lookup (posts db) k (λ o, published now (row o))).
  by destruct (posts db !! k).
Qed.

(** A post that is stored but does not meet the criteria: whoever asks and
    with whatever method, the view raises [Http404] at its first step and the
    state is not touched. *)
Lemma CommentCreateView_not_published (env : Env) (request : HttpRequest) (w : World)
    (k : Z) (P : Post.t) :
  posts (db w) !! k = Some P →
  ¬ published (now env) P →
  respond (CommentCreateView env k) request w = (HttpResponseNotFound, w).
Proof.
  intros Hstored Hnot. unfold respond, CommentCreateView, bind, query.
  rewrite get_post_data_lookup, Hstored. by rewrite decide_False.
Qed.

Lemma CommentCreateView_published (env : Env) (request : HttpRequest) (w : World)
    (k : Z) (P : Post.t) :
  posts (db w) !! k = Some P →
  published (now env) P →
  CommentCreateView env k request w =
  LoginRequiredMixin
    (dispatch (Some CommentCreateView_get)
              (Some (CommentCreateView_post env k (instance k P)))
              (Some (CommentCreateView_post env k (instance k P))) None) request w.
Proof.
  intros Hstored Hpub. unfold CommentCreateView, bind, query.
  rewrite get_post_data_lookup, Hstored. by rewrite decide_True.
Qed.

(** ** C3 *)

(** C3. For every stored post [P] that does not meet the criteria of
    [post_published_query] and every viewer, the author of [P] included, the
    comment creation route answers not found and leaves the state as it was:
    no comment is created. *)
Theorem C3_comment_on_unpublished_post_not_found (env : Env) (request : HttpRequest)
    (w : World) (k : Z) (P : Post.t) :
  posts (db w) !! k = Some P →
  ¬ (Post.is_published P = true
     ∧ Post.pub_date P ≤ now env
     ∧ Category.is_published (row (Post.category P)) = true) →
  let result := respond (CommentCreateView env k) request w in
  result.1 = HttpResponseNotFound
  ∧ comments (db result.2) = comments (db w)
  ∧ result.2 = w.
Proof.
  intros Hstored Hnot result. subst result.
  rewrite (CommentCreateView_not_published env request w k P); [done..|].
  unfold published. tauto.
Qed.

Lemma C3_witness :
  let result :=
    respond (CommentCreateView Example.env 2)
      (Example.request Method.POST (Authenticated Example.alice) "/posts/2/comment/"
         (<["text" := "mine"]> ∅))
      Example.world in
  result.1 = HttpResponseNotFound
  ∧ comments (db result.2) = comments (db Example.world)
  ∧ result.2 = Example.world.
Proof.
  apply (C3_comment_on_unpublished_post_not_found Example.env
           (Example.request Method.POST (Authenticated Example.alice) "/posts/2/comment/"
              (<["text" := "mine"]> ∅))
           Example.world 2 Example.draft_post).
  - reflexivity.
  - intros (Hp & _). vm_compute in Hp. congruence.
Defined.

(** ** C9 *)

(** C9. For every stored post [P] that does not meet the criteria, a comment
    creation request of an anonymous viewer is answered with not found and
    not with a redirect to the login page: the eligibility check of
    [dispatch] runs before the login check, which an anonymous viewer only
    meets, as the redirect to the login page, on a post that meets the
    criteria. *)
Theorem C9_anonymous_comment_on_unpublished_post (env : Env) (request : HttpRequest)
    (w : World) (k : Z) (P : Post.t) :
  user request = AnonymousUser →
  posts (db w) !! k = Some P →
  let criteria :=
    Post.is_published P = true
    ∧ Post.pub_date P ≤ now env
    ∧ Category.is_published (row (Post.category P)) = true in
  let result := respond (CommentCreateView env k) request w in
  (¬ criteria →
     result = (HttpResponseNotFound, w)
     ∧ ∀ next, result.1 ≠ HttpResponseRedirect (login next))
  ∧ (criteria → result = (HttpResponseRedirect (login (full_path request)), w)).
Proof.
  intros Hanon Hstored criteria result. subst result. split.
  - intros Hnot.
    rewrite (CommentCreateView_not_published env request w k P); [done..|].
    unfold published. subst criteria. tauto.
  - intros Hcrit. unfold respond.
    rewrite (CommentCreateView_published env request w k P); [|done|].
    + unfold LoginRequiredMixin. by rewrite Hanon.
    + unfold published. subst criteria. tauto.
Qed.

Lemma C9_witness :
  respond (CommentCreateView Example.env 3)
    (Example.request Method.POST AnonymousUser "/posts/3/comment/" ∅) Example.world
  = (HttpResponseNotFound, Example.world)
  ∧ respond (CommentCreateView Example.env 1)
      (Example.request Method.POST AnonymousUser "/posts/1/comment/" ∅) Example.world
    = (HttpResponseRedirect (login "/posts/1/comment/"), Example.world).
Proof.
  split.
  - apply (C9_anonymous_comment_on_unpublished_post Example.env
             (Example.request Method.POST AnonymousUser "/posts/3/comment/" ∅)
             Example.world 3 Example.hidden_post); [reflexivity..|].
    intros (_ & _ & Hc). vm_compute in Hc. congruence.
  - apply (C9_anonymous_comment_on_unpublished_post Example.env
             (Example.request Method.POST AnonymousUser "/posts/1/comment/" ∅)
             Example.world 1 Example.public_post); [reflexivity..|].
    vm_compute. repeat split; congruence.
Defined.

(** ** Notifications *)

Lemma append_assoc (a b c : string) : (a +:+ b) +:+ c = a +:+ b +:+ c.
Proof.
  induction a as [|x a IH]; [done|].
  change (String x ((a +:+ b) +:+ c) = String x (a +:+ b +:+ c)). by f_equal.
Qed.

Lemma contains_append_r (a s t : string) : contains s t → contains (a +:+ s) t.
Proof.
  intros (pre & suf & ->). exists (a +:+ pre), suf. by rewrite append_assoc.
Qed.

Lemma contains_prefix (t suf : string) : contains (t +:+ suf) t.
Proof. by exists "", suf. Qed.

Lemma notification_addressed (env : Env) (k : Z) (P : Post.t) (request : HttpRequest) :
  recipient_list (notification env k P request) = [User.email (row (Post.author P))]
  ∧ contains (message (notification env k P request)) (Post.title P).
Proof.
  split; [done|]. simpl.
  do 4 apply contains_append_r. apply contains_prefix.
Qed.

Lemma send_author_email_run (env : Env) (k : Z) (P : Post.t) (request : HttpRequest)
    (w : World) :
  send_author_email env k (instance k P) request w =
  (Ok (), {| db := db w;
             outbox := outbox w ++ [notification env k P request];
             writable := writable w |}).
Proof. done. Qed.

(** The key of an insert is not in use. *)
Lemma next_pk_fresh {A} (table : gmap Z A) : table !! next_pk table = None.
Proof.
  destruct (table !! next_pk table) as [r|] eqn:Hr; [exfalso|done].
  apply elem_of_map_to_list in Hr.
  assert (∀ (l : list (Z * A)) k v, (k, v) ∈ l → k ≤ foldr Z.max 0 l.*1) as Hmax.
  { induction l as [|[k' v'] l IH]; intros k v Hkv; [by apply elem_of_nil in Hkv|].
    rewrite fmap_cons. simpl.
    apply elem_of_cons in Hkv as [[= -> ->]|Hkv]; [apply Z.le_max_l|].
    etrans; [exact (IH k v Hkv)|apply Z.le_max_r]. }
  specialize (Hmax _ _ _ Hr). unfold next_pk in Hmax. lia.
Qed.

(** What a valid comment form does: the mail first, when the commenter is not
    the author, then the insert. *)
Lemma CommentCreateView_form_valid_run (env : Env) (k : Z) (P : Post.t) (text : string)
    (request : HttpRequest) (U : Instance User.t) (w : World) :
  user request = Authenticated U →
  let comment := {| Comment.author := U; Comment.post := k; Comment.text := text |} in
  let sent := if bool_decide (pk (Post.author P) = pk U) then []
              else [notification env k P request] in
  let w1 := {| db := db w; outbox := outbox w ++ sent; writable := writable w |} in
  CommentCreateView_form_valid env k (instance k P) text request w =
  if writable w
  then (Ok (HttpResponseRedirect (post_detail k)),
        {| db := set_comments (db w)
                   (<[next_pk (comments (db w)) := comment]> (comments (db w)));
           outbox := outbox w ++ sent;
           writable := true |})
  else (Raise DatabaseError, w1).
Proof.
  intros Huser comment sent w1. unfold CommentCreateView_form_valid.
  rewrite Huser. subst sent w1. unfold bind.
  change (user_eq (Post.author (row (instance k P))) (Authenticated U))
    with (bool_decide (pk (Post.author P) = pk U)).
  case_bool_decide; cbn [negb].
  - rewrite app_nil_r. unfold create_comment, write, ret. destruct w as [d o []]; done.
  - rewrite send_author_email_run. unfold create_comment, write, ret. simpl.
    by destruct (writable w).
Qed.

(** ** C7 *)

(** C7. For every successful comment creation on a post [P] by a user [U],
    that is every request of the comment creation route that is answered with
    the redirect to the page of [P] after the comment of [U] was stored: if
    [U] is not the author of [P], exactly one message was handed to
    [send_mail], addressed to the e-mail address of the author of [P] and
    containing the title of [P]; if [U] is the author of [P], none was. *)
Theorem C7_comment_notification (env : Env) (request : HttpRequest) (w w' : World)
    (k : Z) (P : Post.t) (U : Instance User.t) :
  posts (db w) !! k = Some P →
  user request = Authenticated U →
  respond (CommentCreateView env k) request w = (HttpResponseRedirect (post_detail k), w') →
  (∃ text,
     comments (db w') =
     <[next_pk (comments (db w)) :=
         {| Comment.author := U; Comment.post := k; Comment.text := text |}]>
       (comments (db w)))
  ∧ (pk U ≠ pk (Post.author P) →
     ∃ m, outbox w' = outbox w ++ [m]
          ∧ recipient_list m = [User.email (row (Post.author P))]
          ∧ contains (message m) (Post.title P))
  ∧ (pk U = pk (Post.author P) → outbox w' = outbox w).
Proof.
  intros Hstored Huser Hres.
  destruct (decide (published (now env) P)) as [Hpub|Hpub].
  2:{ by rewrite (CommentCreateView_not_published env request w k P) in Hres. }
  unfold respond in Hres.
  rewrite (CommentCreateView_published env request w k P) in Hres by done.
  unfold LoginRequiredMixin in Hres. rewrite Huser in Hres. cbn [is_authenticated negb] in Hres.
  assert (respond (CommentCreateView_post env k (instance k P)) request w
          = (HttpResponseRedirect (post_detail k), w')) as Hpost.
  { unfold respond, dispatch, ret in *. by destruct (method request). }
  clear Hres. unfold respond, CommentCreateView_post in Hpost.
  destruct (CommentEditForm env (POST request)) as [text|]; [|done].
  rewrite (CommentCreateView_form_valid_run env k P text request U w Huser) in Hpost.
  destruct (writable w); [|done]. injection Hpost as <-. simpl.
  split; [by exists text|]. split.
  - intros Hne. rewrite bool_decide_eq_false_2 by done.
    eexists. split; [done|]. apply notification_addressed.
  - intros Heq. rewrite bool_decide_eq_true_2 by done. by rewrite app_nil_r.
Qed.

Lemma C7_witness :
  ∃ w',
    respond (CommentCreateView Example.env 1)
      (Example.request Method.POST (Authenticated Example.bob) "/posts/1/comment/"
         (<["text" := "Hello"]> ∅))
      Example.world
    = (HttpResponseRedirect (post_detail 1), w')
    ∧ ∃ m, outbox w' = [m]
           ∧ recipient_list m = ["alice@example.com"]
           ∧ contains (message m) "Lisbon".
Proof.
  eexists. split; [vm_compute; reflexivity|].
  apply (C7_comment_notification Example.env
           (Example.request Method.POST (Authenticated Example.bob) "/posts/1/comment/"
              (<["text" := "Hello"]> ∅))
           Example.world _ 1 Example.public_post Example.bob).
  - reflexivity.
  - reflexivity.
  - vm_compute. reflexivity.
  - vm_compute. congruence.
Defined.

(** ** C10 *)

(** C10. When a user other than the author of the post submits a valid
    comment, [form_valid] hands the notification to [send_mail] before it
    stores the comment: the insert runs in the state the mail has already
    been added to, and when the insert fails the request ends in an error
    with the notification in the outbox and no comment stored. *)
Theorem C10_notification_precedes_insert (env : Env) (request : HttpRequest) (w : World)
    (k : Z) (P : Post.t) (U : Instance User.t) (text : string) :
  method request = Method.POST →
  user request = Authenticated U →
  pk U ≠ pk (Post.author P) →
  posts (db w) !! k = Some P →
  published (now env) P →
  CommentEditForm env (POST request) = Some text →
  ∃ m w1,
    recipient_list m = [User.email (row (Post.author P))]
    ∧ send_author_email env k (instance k P) request w = (Ok (), w1)
    ∧ db w1 = db w ∧ outbox w1 = outbox w ++ [m]
    ∧ respond (CommentCreateView env k) request w =
        respond (λ _, do _ <- create_comment
                               {| Comment.author := U; Comment.post := k;
                                  Comment.text := text |};
                      ret (HttpResponseRedirect (post_detail k))) request w1
    ∧ (writable w = false →
       respond (CommentCreateView env k) request w
       = (HttpResponseServerError DatabaseError, w1)).
Proof.
  intros Hpost Huser Hne Hstored Hpub Hform.
  exists (notification env k P request),
         {| db := db w; outbox := outbox w ++ [notification env k P request];
            writable := writable w |}.
  split; [done|]. split; [apply send_author_email_run|].
  split; [done|]. split; [done|].
  assert (respond (CommentCreateView env k) request w
          = respond (CommentCreateView_form_valid env k (instance k P) text) request w)
    as ->.
  { unfold respond. rewrite (CommentCreateView_published env request w k P) by done.
    unfold LoginRequiredMixin, dispatch. rewrite Huser, Hpost. cbn [is_authenticated negb].
    unfold CommentCreateView_post. by rewrite Hform. }
  unfold respond.
  rewrite (CommentCreateView_form_valid_run env k P text request U w Huser).
  rewrite bool_decide_eq_false_2 by done.
  unfold bind, create_comment, write, ret. simpl.
  split; [by destruct (writable w)|]. by intros ->.
Qed.

Lemma C10_witness :
  ∃ m,
    recipient_list m = ["alice@example.com"]
    ∧ respond (CommentCreateView Example.env 1)
        (Example.request Method.POST (Authenticated Example.bob) "/posts/1/comment/"
           (<["text" := "Hello"]> ∅))
        Example.broken_world
      = (HttpResponseServerError DatabaseError,
         {| db := Example.store; outbox := [m]; writable := false |}).
Proof.
  destruct (C10_notification_precedes_insert Example.env
              (Example.request Method.POST (Authenticated Example.bob) "/posts/1/comment/"
                 (<["text" := "Hello"]> ∅))
              Example.broken_world 1 Example.public_post Example.bob "Hello")
    as (m & w1 & Hto & Hsend & Hdb & Hout & _ & Hfail).
  - reflexivity.
  - reflexivity.
  - vm_compute. congruence.
  - reflexivity.
  - vm_compute. repeat split; congruence.
  - reflexivity.
  - exists m. split; [exact Hto|].
    rewrite (Hfail eq_refl). f_equal.
    rewrite send_author_email_run in Hsend.
    destruct w1 as [d o wr]. simpl in Hdb, Hout. injection Hsend as _ _ <-.
    by rewrite Hdb, Hout.
Defined.

(** ** Update and delete routes *)

Lemma get_object_objects {A} (table : gmap Z A) (k : Z) :
  get_object pk (objects table) k =
  match table !! k with
  | Some r => Ok (instance k r)
  | None => Raise Http404
  end.
Proof. apply get_object_or_404_pk. Qed.

(** A viewer who is not the author of a stored post is redirected to the
    page of the post by both post routes, before the login check and before
    any handler runs. *)
Lemma post_mutation_not_author (env : Env) (action : Action) (request : HttpRequest)
    (w : World) (k : Z) (P : Post.t) :
  posts (db w) !! k = Some P →
  user_eq (Post.author P) (user request) = false →
  respond (mutation_view env action (PostResource k)) request w
  = (HttpResponseRedirect (post_detail k), w).
Proof.
  intros Hstored Hne.
  destruct action; unfold respond, mutation_view, PostUpdateView, PostDeleteView,
    bind, query; rewrite get_object_objects, Hstored; simpl; by rewrite Hne.
Qed.

Lemma comment_mutation_not_author (env : Env) (action : Action) (request : HttpRequest)
    (w : World) (k c : Z) (C : Comment.t) :
  is_authenticated (user request) = true →
  comments (db w) !! c = Some C →
  Comment.post C = k →
  user_eq (Comment.author C) (user request) = false →
  respond (mutation_view env action (CommentResource k c)) request w
  = (HttpResponseRedirect (post_detail k), w).
Proof.
  intros Hauth Hstored Hpost Hne.
  destruct action; unfold respond, mutation_view, CommentUpdateView, CommentDeleteView,
    CommentMixinView, LoginRequiredMixin, bind, query, CommentMixinView_get_object;
    rewrite Hauth; simpl;
    rewrite (get_object_or_404_lookup (comments (db w)) c
               (λ o, Comment.post (row o) = k)), Hstored;
    simpl; rewrite decide_True by done; simpl; by rewrite Hne.
Qed.

(** ** C4 *)

(** C4. For every authenticated viewer [V] and every stored post or comment
    [R] whose author is not [V], a request of [V] to update or to delete [R],
    whatever its method and data, leaves the whole state as it was and is
    answered with a redirect to the detail page of [R], for a comment the
    page of its parent post. *)
Theorem C4_non_owner_mutation_redirects (env : Env) (action : Action) (R : Resource)
    (request : HttpRequest) (w : World) (V author : Instance User.t) :
  user request = Authenticated V →
  resource_author (db w) R = Some author →
  pk author ≠ pk V →
  respond (mutation_view env action R) request w
  = (HttpResponseRedirect (detail_page R), w).
Proof.
  intros Huser Hauthor Hne.
  assert (user_eq author (user request) = false) as Hneq.
  { rewrite Huser. simpl. unfold model_eq. by apply bool_decide_eq_false_2. }
  destruct R as [k|k c]; simpl in Hauthor |- *.
  - destruct (posts (db w) !! k) as [P|] eqn:Hstored; [|done].
    injection Hauthor as <-. by apply (post_mutation_not_author env action request w k P).
  - destruct (comments (db w) !! c) as [C|] eqn:Hstored; [|done]. simpl in Hauthor.
    case_bool_decide as Hpost; [|done]. injection Hauthor as <-.
    apply (comment_mutation_not_author env action request w k c C); try done.
    by rewrite Huser.
Qed.

Lemma C4_witness :
  respond (mutation_view Example.env Delete (PostResource 1))
    (Example.request Method.POST (Authenticated Example.bob) "/posts/1/delete/" ∅)
    Example.world
  = (HttpResponseRedirect (post_detail 1), Example.world)
  ∧ respond (mutation_view Example.env Update (CommentResource 1 1))
      (Example.request Method.POST (Authenticated Example.alice)
         "/posts/1/edit_comment/1/" (<["text" := "changed"]> ∅))
      Example.world
    = (HttpResponseRedirect (post_detail 1), Example.world).
Proof.
  split.
  - apply (C4_non_owner_mutation_redirects Example.env Delete (PostResource 1)
             (Example.request Method.POST (Authenticated Example.bob) "/posts/1/delete/" ∅)
             Example.world Example.bob Example.alice).
    + reflexivity.
    + reflexivity.
    + vm_compute. congruence.
  - apply (C4_non_owner_mutation_redirects Example.env Update (CommentResource 1 1)
             (Example.request Method.POST (Authenticated Example.alice)
                "/posts/1/edit_comment/1/" (<["text" := "changed"]> ∅))
             Example.world Example.alice Example.bob).
    + reflexivity.
    + reflexivity.
    + vm_compute. congruence.
Defined.

(** ** C5 *)

(** An anonymous viewer is equal to no author, so on a stored post both post
    routes answer with the redirect to the page of the post; the login check
    of [LoginRequiredMixin] sits behind the author check and is never reached
    by an anonymous viewer. *)
Lemma anonymous_post_mutation (env : Env) (action : Action) (request : HttpRequest)
    (w : World) (k : Z) (P : Post.t) :
  user request = AnonymousUser →
  posts (db w) !! k = Some P →
  respond (mutation_view env action (PostResource k)) request w
  = (HttpResponseRedirect (post_detail k), w).
Proof.
  intros Hanon Hstored. apply (post_mutation_not_author env action request w k P Hstored).
  by rewrite Hanon.
Qed.

(** C5, the code at an anonymous request.  The update and the delete route
    of the stored post 1 answer an anonymous viewer with the redirect to the
    page of the post, not with a redirect to the login page. *)
Theorem C5_anonymous_post_mutation_goes_to_detail :
  let on_update :=
    respond (PostUpdateView Example.env 1)
      (Example.request Method.GET AnonymousUser "/posts/1/edit/" ∅) Example.world in
  let on_delete :=
    respond (PostDeleteView 1)
      (Example.request Method.POST AnonymousUser "/posts/1/delete/" ∅) Example.world in
  on_update = (HttpResponseRedirect (post_detail 1), Example.world)
  ∧ on_delete = (HttpResponseRedirect (post_detail 1), Example.world)
  ∧ (∀ next, on_update.1 ≠ HttpResponseRedirect (login next))
  ∧ (∀ next, on_delete.1 ≠ HttpResponseRedirect (login next)).
Proof.
  intros on_update on_delete.
  assert (on_update = (HttpResponseRedirect (post_detail 1), Example.world)) as ->.
  { apply (anonymous_post_mutation Example.env Update _ Example.world 1
             Example.public_post); reflexivity. }
  assert (on_delete = (HttpResponseRedirect (post_detail 1), Example.world)) as ->.
  { apply (anonymous_post_mutation Example.env Delete _ Example.world 1
             Example.public_post); reflexivity. }
  by split_and!.
Qed.

(** ** C8 *)

(** Whatever the profile route returns as a page, the total it exposes was
    computed by the author test of [get_context_data]. *)
Lemma UserPostsListView_get_total (env : Env) (username : string) (request : HttpRequest)
    (w w' : World) (r : Response) :
  UserPostsListView_get env username request w = (Ok r, w') →
  ∃ A object_list page_obj,
    r = TemplateResponse "blog/profile.html"
          (ProfileContext A object_list page_obj
             (if user_eq A (user request)
              then length (filter_author A (post_all_query (db w)))
              else length (filter_author A (post_published_query (db w) (now env))))).
Proof.
  unfold UserPostsListView_get, bind, query, ret.
  destruct (UserPostsListView_get_queryset env username request (db w)) as [[A qs]|e];
    [|done]. simpl.
  destruct (get_paginated_page (int env) qs (GET request !! "page") 10) as [pg|e]; [|done].
  destruct (user_eq A (user request)) eqn:Hu; intros [= <- <-];
    exists A, qs, pg; by rewrite Hu.
Qed.

(** C8. For every profile page of a user [A] shown to a viewer [V]: the total
    post count it exposes is the number of posts of [post_all_query] whose
    author is [A] when [V] is [A], and the number of posts of
    [post_published_query] whose author is [A] when [V] is not [A]. *)
Theorem C8_profile_total_posts (env : Env) (username : string) (request : HttpRequest)
    (w w' : World) (A : Instance User.t) (object_list : list Annotated)
    (page_obj : Page Annotated) (total_posts : nat) :
  respond (UserPostsListView env username) request w
  = (TemplateResponse "blog/profile.html"
       (ProfileContext A object_list page_obj total_posts), w') →
  (is_user (user request) A →
   total_posts =
   length (filter (λ a, pk (Post.author (row (obj a))) = pk A) (post_all_query (db w))))
  ∧ (¬ is_user (user request) A →
     total_posts =
     length (filter (λ a, pk (Post.author (row (obj a))) = pk A)
               (post_published_query (db w) (now env)))).
Proof.
  intros Hres.
  assert (∃ r w'', UserPostsListView_get env username request w = (Ok r, w'')
                   ∧ r = TemplateResponse "blog/profile.html"
                           (ProfileContext A object_list page_obj total_posts))
    as (r & w'' & Hget & ->).
  { unfold respond, UserPostsListView, dispatch, ret in Hres.
    destruct (method request); try done;
      destruct (UserPostsListView_get env username request w) as [[r|[]] w''];
      try done; injection Hres as -> _; eauto. }
  apply UserPostsListView_get_total in Hget as (A' & ol & pg & [= <- <- <- ->]).
  fold (filter_author A (post_all_query (db w))).
  fold (filter_author A (post_published_query (db w) (now env))).
  split; intros Hv.
  - apply user_eq_true in Hv. by rewrite Hv.
  - apply user_eq_false in Hv. by rewrite Hv.
Qed.

Lemma C8_witness :
  ∃ ol pg ol' pg',
    respond (UserPostsListView Example.env "alice")
      (Example.request Method.GET (Authenticated Example.alice) "/profile/alice/" ∅)
      Example.world
    = (TemplateResponse "blog/profile.html" (ProfileContext Example.alice ol pg 2),
       Example.world)
    ∧ respond (UserPostsListView Example.env "alice")
        (Example.request Method.GET (Authenticated Example.bob) "/profile/alice/" ∅)
        Example.world
      = (TemplateResponse "blog/profile.html" (ProfileContext Example.alice ol' pg' 1),
         Example.world)
    ∧ 2%nat = length (filter (λ a, pk (Post.author (row (obj a))) = pk Example.alice)
                        (post_all_query Example.store))
    ∧ 1%nat = length (filter (λ a, pk (Post.author (row (obj a))) = pk Example.alice)
                        (post_published_query Example.store 1000)).
Proof.
  eexists _, _, _, _.
  split; [vm_compute; reflexivity|]. split; [vm_compute; reflexivity|]. split.
  - eapply (C8_profile_total_posts Example.env "alice"
              (Example.request Method.GET (Authenticated Example.alice) "/profile/alice/" ∅)
              Example.world Example.world Example.alice).
    + vm_compute. reflexivity.
    + by exists Example.alice.
  - eapply (C8_profile_total_posts Example.env "alice"
              (Example.request Method.GET (Authenticated Example.bob) "/profile/alice/" ∅)
              Example.world Example.world Example.alice).
    + vm_compute. reflexivity.
    + intros (u & [= <-] & Hpk). vm_compute in Hpk. congruence.
Defined.


(** * Further properties *)

(** ** The two query sets *)

Global Instance newest_first_trans : Transitive newest_first.
Proof. intros a b c. unfold newest_first. lia. Qed.

Global Instance newest_first_total : Total newest_first.
Proof. intros a b. unfold newest_first. lia. Qed.

Lemma StronglySorted_filter {A} (R : relation A) (P : A → Prop) `{∀ x, Decision (P x)}
    (l : list A) :
  StronglySorted R l → StronglySorted R (filter P l).
Proof.
  induction 1 as [|x l Hl IH Hx]; [constructor|].
  rewrite filter_cons. case_decide; [|done].
  constructor; [done|]. apply Forall_forall. intros y Hy.
  apply list_elem_of_filter in Hy as [_ Hy]. by eapply Forall_forall in Hx.
Qed.

Lemma objects_length {A} (table : gmap Z A) : length (objects table) = size table.
Proof. unfold objects. by rewrite length_fmap, length_map_to_list. Qed.

(** X1. [post_all_query] returns every stored post exactly once, each
    annotated with the count of its comments, and in an order in which no
    post comes before one with a later publication date. *)
Theorem X1_post_all_query_sorted_complete (db : Store) :
  StronglySorted (λ a b, Post.pub_date (row (obj b)) ≤ Post.pub_date (row (obj a)))
    (post_all_query db)
  ∧ post_all_query db ≡ₚ (λ o, annotated o (count_comments db o)) <$> objects (posts db)
  ∧ length (post_all_query db) = size (posts db).
Proof.
  assert (post_all_query db ≡ₚ annotate db <$> objects (posts db)) as Hperm.
  { unfold post_all_query, order_by_pub_date_desc. apply merge_sort_Permutation. }
  split_and!.
  - unfold post_all_query, order_by_pub_date_desc.
    apply (StronglySorted_merge_sort newest_first).
  - exact Hperm.
  - by rewrite Hperm, length_fmap, objects_length.
Qed.

(** X2. [post_published_query] keeps the order of [post_all_query]: it is a
    sublist of it, so it too lists later publication dates first, and it
    holds only posts that meet the three conditions. *)
Theorem X2_post_published_query_sublist (db : Store) (now : Z) :
  post_published_query db now `sublist_of` post_all_query db
  ∧ StronglySorted (λ a b, Post.pub_date (row (obj b)) ≤ Post.pub_date (row (obj a)))
      (post_published_query db now)
  ∧ Forall (λ a, Post.pub_date (row (obj a)) ≤ now
                 ∧ Post.is_published (row (obj a)) = true
                 ∧ Category.is_published (row (Post.category (row (obj a)))) = true)
      (post_published_query db now).
Proof.
  unfold post_published_query. split_and!.
  - apply sublist_filter.
  - apply (StronglySorted_filter newest_first).
    apply (StronglySorted_merge_sort newest_first).
  - apply Forall_forall. intros a Ha.
    by apply (list_elem_of_filter (λ a, published now (row (obj a)))) in Ha as [Hp _].
Qed.

(** X3. Visibility only grows with time: the posts published at one time are
    still published, in the same order, at every later time. *)
Theorem X3_published_monotone_in_time (db : Store) (now now' : Z) :
  now ≤ now' →
  post_published_query db now `sublist_of` post_published_query db now'.
Proof.
  intros Hle. unfold post_published_query.
  rewrite <- (list_filter_filter_l (λ a, published now (row (obj a)))
                (λ a, published now' (row (obj a)))).
  - apply sublist_filter.
  - intros a (Hd & Hrest). split; [lia|done].
Qed.

Lemma X3_witness :
  post_published_query Example.store 1000 `sublist_of` post_published_query Example.store 6000
  ∧ length (post_published_query Example.store 1000) = 1%nat
  ∧ length (post_published_query Example.store 6000) = 2%nat.
Proof.
  split; [|by vm_compute].
  apply (X3_published_monotone_in_time Example.store 1000 6000). lia.
Defined.

(** X4. [get_post_data] accepts exactly the posts of [post_published_query]:
    it returns the post of the given key when that post is in the published
    query set, and raises [Http404], never another exception, when it is
    not. *)
Theorem X4_get_post_data_agrees_with_published_query (db : Store) (now : Z) (k : Z) :
  (∀ p, get_post_data db now k = Ok p ↔
        pk p = k ∧ p ∈ obj <$> post_published_query db now)
  ∧ ((∀ p, pk p = k → p ∉ obj <$> post_published_query db now) →
     get_post_data db now k = Raise Http404).
Proof.
  assert (∀ p, p ∈ obj <$> post_published_query db now ↔
               posts db !! pk p = Some (row p) ∧ published now (row p)) as Hin.
  { intros p. rewrite elem_of_obj_fmap. split.
    - intros (a & <- & Ha). apply elem_of_post_published_query in Ha as [Hp Ha].
      apply elem_of_post_all_query in Ha as (o & -> & Ho). done.
    - intros [Hst Hp]. exists (annotate db p). split; [done|].
      apply elem_of_post_published_query. split; [done|].
      apply elem_of_post_all_query. by exists p. }
  rewrite get_post_data_lookup. split.
  - intros p. rewrite Hin. destruct (posts db !! k) as [P|] eqn:Hk.
    + destruct (decide (published now P)) as [Hp|Hp]; split.
      * intros [= <-]. done.
      * intros (<- & Hst & _). destruct p as [k' P']. simpl in *. congruence.
      * done.
      * intros (<- & Hst & Hp'). destruct p as [k' P']. simpl in *. congruence.
    + split; [done|]. intros (<- & Hst & _). congruence.
  - intros Hnone. destruct (posts db !! k) as [P|] eqn:Hk; [|done].
    destruct (decide (published now P)) as [Hp|Hp]; [|done].
    exfalso. apply (Hnone (instance k P)); [done|]. by apply Hin.
Qed.

(** ** Pages *)

Section page_facts.
Context {A : Type} (l : list A) (pp : Z).
Hypothesis pp_pos : 0 < pp.

Local Abbreviation pgr := {| paginator_object_list := l; per_page := pp |}.

(** What [get_page] returns, with the bounds of the page number. *)
Lemma get_page_result (int : string → option Z) (page_number : option string) :
  ∃ np n,
    num_pages pgr = Ok np
    ∧ 1 ≤ n ≤ np
    ∧ (np - 1) * pp < Z.max 1 (count pgr) ≤ np * pp
    ∧ n = match page_number ≫= int with
          | None => 1
          | Some m => if bool_decide (1 ≤ m ≤ np) then m else np
          end
    ∧ get_page int pgr page_number =
        Ok {| object_list := take (Z.to_nat pp) (drop (Z.to_nat ((n - 1) * pp)) l);
              number := n;
              paginator := pgr |}.
Proof using pp_pos.
  destruct (num_pages_spec l pp pp_pos) as (np & Hnp & Hnp1 & Hbounds).
  exists np.
  exists (match page_number ≫= int with
          | None => 1
          | Some m => if bool_decide (1 ≤ m ≤ np) then m else np
          end).
  split; [done|].
  assert (∀ n, 1 ≤ n ≤ np →
            page pgr n =
            Ok {| object_list := take (Z.to_nat pp) (drop (Z.to_nat ((n - 1) * pp)) l);
                  number := n; paginator := pgr |}) as Hpage.
  { intros n Hn. by apply (page_valid l pp pp_pos np). }
  unfold get_page, validate_number, to_int.
  destruct page_number as [s|]; simpl.
  - destruct (int s) as [m|]; simpl.
    + case_bool_decide as Hm.
      * rewrite (check_range_ok l pp np) by done. split_and!; [lia..|done|by apply Hpage].
      * rewrite (check_range_out l pp np) by (done || lia). rewrite Hnp. simpl.
        split_and!; [lia..|done|apply Hpage; lia].
    + split_and!; [lia..|done|apply Hpage; lia].
  - split_and!; [lia..|done|apply Hpage; lia].
Qed.
End page_facts.



(** X6. Every item is on exactly the page its position gives.  [int]
    stands for Python's [int] on the page parameter.  With a positive page
    size, when the page parameter is a text that [int] reads as
    [i / per_page + 1], the page returned has that number and the item at
    position [i] (from 0) of the sequence is its item at position
    [i mod per_page]. *)
Theorem X6_item_on_its_page {A} (int : string → option Z) (l : list A) (per_page : Z)
    (i : nat) (s : string) :
  0 < per_page →
  (i < length l)%nat →
  int s = Some (Z.of_nat i `div` per_page + 1) →
  ∃ pg,
    get_paginated_page int l (Some s) per_page = Ok pg
    ∧ number pg = Z.of_nat i `div` per_page + 1
    ∧ object_list pg !! Z.to_nat (Z.of_nat i `mod` per_page) = l !! i.
Proof.
  intros Hpos Hi Hs.
  destruct (get_page_result l per_page Hpos int (Some s))
    as (np & n & Hnp & Hn & Hb & Hnum & Hget).
  simpl in Hnum. rewrite Hs in Hnum. simpl in Hnum.
  unfold count in Hb. simpl in Hb.
  pose proof (Z.div_mod (Z.of_nat i) per_page ltac:(lia)) as Hdm.
  pose proof (Z.mod_pos_bound (Z.of_nat i) per_page Hpos) as Hmod.
  assert (0 ≤ Z.of_nat i `div` per_page) as Hq by (apply Z.div_pos; lia).
  rewrite bool_decide_eq_true_2 in Hnum by nia.
  unfold get_paginated_page. rewrite Hget. eexists. split; [done|]. simpl.
  split; [done|]. subst n.
  rewrite lookup_take_lt by lia. rewrite lookup_drop. f_equal. nia.
Qed.

Lemma X6_witness :
  ∃ pg,
    get_paginated_page py_int Example.items (Some "3") 10 = Ok pg
    ∧ number pg = Z.of_nat 24 `div` 10 + 1
    ∧ object_list pg !! Z.to_nat (Z.of_nat 24 `mod` 10) = Example.items !! 24%nat.
Proof.
  apply (X6_item_on_its_page py_int Example.items 10 24 "3").
  - lia.
  - vm_compute. lia.
  - reflexivity.
Defined.

(** ** The detail page *)

Lemma check_post_data_published (env : Env) (p : Instance Post.t) :
  check_post_data env p = true ↔ published (now env) (row p).
Proof.
  unfold check_post_data, published.
  rewrite !andb_true_iff, bool_decide_eq_true. tauto.
Qed.

Lemma PostDetailView_get_run (env : Env) (k : Z) (request : HttpRequest) (w : World) :
  PostDetailView_get env k request w =
  match posts (db w) !! k with
  | Some P =>
      if user_eq (Post.author P) (user request) || bool_decide (published (now env) P)
      then (Ok (TemplateResponse "blog/detail.html"
                  (DetailContext (annotate (db w) (instance k P))
                     (check_post_data env (instance k P))
                     (filter (λ c, Comment.post (row c) = k) (objects (comments (db w)))))),
            w)
      else (Raise Http404, w)
  | None => (Raise Http404, w)
  end.
Proof.
  unfold PostDetailView_get, bind, query, ret.
  destruct (posts (db w) !! k) as [P|] eqn:Hstored.
  - rewrite (PostDetailView_get_queryset_stored env k request (db w) P Hstored). simpl.
    destruct (user_eq (Post.author P) (user request)); simpl.
    + unfold get_object. by rewrite filter_cons_True.
    + destruct (decide (published (now env) P)) as [Hp|Hp].
      * rewrite bool_decide_eq_true_2 by done.
        unfold get_object. by rewrite filter_cons_True.
      * by rewrite bool_decide_eq_false_2.
  - unfold PostDetailView_get_queryset. by rewrite get_object_or_404_pk, Hstored.
Qed.

(** X7. Whenever the detail route answers with the detail page, the state is
    untouched; the page shows the stored post of the requested key; its
    comment list holds exactly the stored comments of that post and is as long
    as the comment count of the post; and the flag that offers the comment
    form is set exactly when [get_post_data] accepts the post, that is when a
    comment on it can be created. *)
Theorem X7_detail_page_contents (env : Env) (k : Z) (request : HttpRequest) (w w' : World)
    (a : Annotated) (flag : bool) (cs : list (Instance Comment.t)) :
  respond (PostDetailView env k) request w
  = (TemplateResponse "blog/detail.html" (DetailContext a flag cs), w') →
  w' = w
  ∧ pk (obj a) = k
  ∧ posts (db w) !! k = Some (row (obj a))
  ∧ comment_count a = length cs
  ∧ (∀ c, c ∈ cs ↔ comments (db w) !! pk c = Some (row c) ∧ Comment.post (row c) = k)
  ∧ (flag = true ↔ get_post_data (db w) (now env) k = Ok (obj a)).
Proof.
  intros Hres.
  assert (respond (PostDetailView_get env k) request w
          = (TemplateResponse "blog/detail.html" (DetailContext a flag cs), w')) as Hget.
  { unfold respond, PostDetailView, dispatch, ret in *. by destruct (method request). }
  clear Hres. unfold respond in Hget. rewrite PostDetailView_get_run in Hget.
  destruct (posts (db w) !! k) as [P|] eqn:Hstored; [|done].
  destruct (user_eq _ _ || bool_decide _); [|done].
  injection Hget as <- <- <- <-. simpl. split_and!; try done.
  - intros c. rewrite (list_elem_of_filter (λ c, Comment.post (row c) = k)).
    rewrite elem_of_objects. tauto.
  - rewrite check_post_data_published, get_post_data_lookup, Hstored. simpl.
    destruct (decide (published (now env) P)); split; done.
Qed.

Lemma X7_witness :
  ∃ a cs,
    respond (PostDetailView Example.env 2)
      (Example.request Method.GET (Authenticated Example.alice) "/posts/2/" ∅) Example.world
    = (TemplateResponse "blog/detail.html" (DetailContext a false cs), Example.world)
    ∧ comment_count a = length cs
    ∧ get_post_data Example.store 1000 2 ≠ Ok (obj a).
Proof.
  eexists _, _. split; [vm_compute; reflexivity|].
  destruct (X7_detail_page_contents Example.env 2
              (Example.request Method.GET (Authenticated Example.alice) "/posts/2/" ∅)
              Example.world Example.world _ false _ eq_refl)
    as (_ & _ & _ & Hcount & _ & Hflag).
  split; [exact Hcount|]. intros Hok. apply Hflag in Hok. discriminate Hok.
Defined.

(** X8. A key under which no post is stored: the update, the delete and the
    comment creation route answer every request, whoever sends it and with
    whatever method, with not found, and so does the detail route a GET
    request; the state stays as it was. *)
Theorem X8_missing_post_not_found (env : Env) (k : Z) (request : HttpRequest) (w : World) :
  posts (db w) !! k = None →
  respond (PostUpdateView env k) request w = (HttpResponseNotFound, w)
  ∧ respond (PostDeleteView k) request w = (HttpResponseNotFound, w)
  ∧ respond (CommentCreateView env k) request w = (HttpResponseNotFound, w)
  ∧ (method request = Method.GET →
     respond (PostDetailView env k) request w = (HttpResponseNotFound, w)).
Proof.
  intros Hnone. split_and!.
  - unfold respond, PostUpdateView, bind, query. by rewrite get_object_objects, Hnone.
  - unfold respond, PostDeleteView, bind, query. by rewrite get_object_objects, Hnone.
  - unfold respond, CommentCreateView, bind, query. by rewrite get_post_data_lookup, Hnone.
  - intros Hget. unfold respond, PostDetailView, dispatch. rewrite Hget.
    by rewrite PostDetailView_get_run, Hnone.
Qed.

Lemma X8_witness :
  respond (PostUpdateView Example.env 9)
    (Example.request Method.POST AnonymousUser "/posts/9/edit/" ∅) Example.world
  = (HttpResponseNotFound, Example.world)
  ∧ respond (PostDeleteView 9)
      (Example.request Method.POST (Authenticated Example.bob) "/posts/9/delete/" ∅)
      Example.world
    = (HttpResponseNotFound, Example.world).
Proof.
  split.
  - apply (X8_missing_post_not_found Example.env 9
             (Example.request Method.POST AnonymousUser "/posts/9/edit/" ∅) Example.world).
    reflexivity.
  - apply (X8_missing_post_not_found Example.env 9
             (Example.request Method.POST (Authenticated Example.bob) "/posts/9/delete/" ∅)
             Example.world).
    reflexivity.
Defined.

(** ** Post update, delete and creation *)

Lemma user_eq_authenticated (a : Instance User.t) (v : RequestUser) :
  user_eq a v = true → is_authenticated v = true.
Proof. by destruct v. Qed.

Lemma PostUpdateView_run (env : Env) (k : Z) (request : HttpRequest) (w : World) :
  PostUpdateView env k request w =
  match posts (db w) !! k with
  | None => (Raise Http404, w)
  | Some P =>
      if negb (user_eq (Post.author P) (user request))
      then (Ok (HttpResponseRedirect (post_detail k)), w)
      else
        let form_page data :=
          (Ok (TemplateResponse "blog/create.html" (PostFormContext (instance k P) data)), w) in
        let submit :=
          match PostEditForm env (POST request) P with
          | Some P' =>
              if writable w
              then (Ok (HttpResponseRedirect (post_detail k)),
                    {| db := set_posts (db w) (<[k := P']> (posts (db w)));
                       outbox := outbox w; writable := writable w |})
              else (Raise DatabaseError, w)
          | None => form_page (Some (POST request))
          end in
        match method request with
        | Method.GET | Method.HEAD => form_page None
        | Method.POST | Method.PUT => submit
        | Method.OPTIONS => (Ok HttpResponseOptions, w)
        | _ => (Ok HttpResponseNotAllowed, w)
        end
  end.
Proof.
  unfold PostUpdateView, bind, query. rewrite get_object_objects.
  destruct (posts (db w) !! k) as [P|] eqn:Hstored; [|done]. simpl.
  destruct (user_eq (Post.author P) (user request)) eqn:Hu; [|done]. simpl.
  unfold LoginRequiredMixin. rewrite (user_eq_authenticated _ _ Hu). simpl.
  unfold dispatch.
  destruct (method request); simpl; try done;
    unfold PostUpdateView_get, PostUpdateView_post, bind, query, write, ret;
    rewrite get_object_objects, Hstored; simpl; try done;
    destruct (PostEditForm env (POST request) P); try done; by destruct (writable w).
Qed.

(** X9. What an update request can do.  Whatever the request, the update
    route of a post leaves the outbox, the users, the categories, the
    comments and every other post as they were.  The state changes only when
    the viewer is the author of the stored post, the method is POST or PUT and
    the form accepts the data: then the post is replaced by the form's result
    and the answer is the redirect to the page of the post. *)
Theorem X9_post_update_effects (env : Env) (k : Z) (request : HttpRequest) (w : World) :
  let result := respond (PostUpdateView env k) request w in
  outbox result.2 = outbox w
  ∧ users (db result.2) = users (db w)
  ∧ categories (db result.2) = categories (db w)
  ∧ comments (db result.2) = comments (db w)
  ∧ (∀ k', k' ≠ k → posts (db result.2) !! k' = posts (db w) !! k')
  ∧ (result.2 ≠ w →
     ∃ P P',
       posts (db w) !! k = Some P
       ∧ is_user (user request) (Post.author P)
       ∧ (method request = Method.POST ∨ method request = Method.PUT)
       ∧ PostEditForm env (POST request) P = Some P'
       ∧ posts (db result.2) !! k = Some P'
       ∧ result.1 = HttpResponseRedirect (post_detail k)).
Proof.
  intros result. subst result. unfold respond. rewrite PostUpdateView_run.
  destruct (posts (db w) !! k) as [P|] eqn:Hstored; [|by split_and!].
  destruct (user_eq (Post.author P) (user request)) eqn:Hu; [|by split_and!]. simpl.
  apply user_eq_true in Hu.
  destruct (PostEditForm env (POST request) P) as [P'|] eqn:Hform;
    destruct (method request) eqn:Hm; simpl; try (by split_and!);
    destruct (writable w) eqn:Hw; simpl; try (by split_and!).
  all: split_and!; try done.
  all: try (intros k' Hk'; by rewrite lookup_insert_ne).
  all: intros _; exists P, P'; split_and!; try done; auto; by rewrite lookup_insert_eq.
Qed.

Lemma PostDeleteView_run (k : Z) (request : HttpRequest) (w : World) :
  PostDeleteView k request w =
  match posts (db w) !! k with
  | None => (Raise Http404, w)
  | Some P =>
      if negb (user_eq (Post.author P) (user request))
      then (Ok (HttpResponseRedirect (post_detail k)), w)
      else
        let remove :=
          if writable w
          then (Ok (HttpResponseRedirect (profile (user_str (user request)))),
                {| db := delete_post k (db w); outbox := outbox w; writable := writable w |})
          else (Raise DatabaseError, w) in
        match method request with
        | Method.GET | Method.HEAD =>
            (Ok (TemplateResponse "blog/create.html" (PostFormContext (instance k P) None)), w)
        | Method.POST | Method.DELETE => remove
        | Method.OPTIONS => (Ok HttpResponseOptions, w)
        | _ => (Ok HttpResponseNotAllowed, w)
        end
  end.
Proof.
  unfold PostDeleteView, bind, query. rewrite get_object_objects.
  destruct (posts (db w) !! k) as [P|] eqn:Hstored; [|done]. simpl.
  destruct (user_eq (Post.author P) (user request)) eqn:Hu; [|done]. simpl.
  unfold LoginRequiredMixin. rewrite (user_eq_authenticated _ _ Hu). simpl.
  unfold dispatch.
  destruct (method request); simpl; try done;
    unfold PostDeleteView_get, PostDeleteView_delete, bind, query, write, ret;
    rewrite get_object_objects, Hstored; simpl; try done; by destruct (writable w).
Qed.

(** X10. What a delete request can do.  Whatever the request, the delete
    route of a post leaves the outbox, the users, the categories and every
    other post as they were.  The state changes only when the viewer is the
    author of the stored post and the method is POST or DELETE: then the post
    is gone and the answer is the redirect to the profile of the viewer.  A
    GET request deletes nothing. *)
Theorem X10_post_delete_effects (k : Z) (request : HttpRequest) (w : World) :
  let result := respond (PostDeleteView k) request w in
  outbox result.2 = outbox w
  ∧ users (db result.2) = users (db w)
  ∧ categories (db result.2) = categories (db w)
  ∧ (∀ k', k' ≠ k → posts (db result.2) !! k' = posts (db w) !! k')
  ∧ (result.2 ≠ w →
     ∃ P,
       posts (db w) !! k = Some P
       ∧ is_user (user request) (Post.author P)
       ∧ (method request = Method.POST ∨ method request = Method.DELETE)
       ∧ posts (db result.2) !! k = None
       ∧ result.1 = HttpResponseRedirect (profile (user_str (user request)))).
Proof.
  intros result. subst result. unfold respond. rewrite PostDeleteView_run.
  destruct (posts (db w) !! k) as [P|] eqn:Hstored; [|by split_and!].
  destruct (user_eq (Post.author P) (user request)) eqn:Hu; [|by split_and!]. simpl.
  apply user_eq_true in Hu.
  destruct (method request) eqn:Hm; simpl; try (by split_and!);
    destruct (writable w) eqn:Hw; simpl; try (by split_and!).
  all: split_and!; try done.
  all: try (intros k' Hk'; by rewrite lookup_delete_ne).
  all: intros _; exists P; split_and!; try done; auto; by rewrite lookup_delete_eq.
Qed.

Lemma X9_witness :
  let result :=
    respond (PostUpdateView Example.env 1)
      (Example.request Method.POST (Authenticated Example.alice) "/posts/1/edit/"
         (<["title" := "Sintra"]> ∅))
      Example.world in
  result.1 = HttpResponseRedirect (post_detail 1)
  ∧ Post.title <$> posts (db result.2) !! 1 = Some "Sintra"
  ∧ posts (db result.2) !! 2 = posts Example.store !! 2
  ∧ comments (db result.2) = comments Example.store.
Proof.
  intros result.
  destruct (X9_post_update_effects Example.env 1
              (Example.request Method.POST (Authenticated Example.alice) "/posts/1/edit/"
                 (<["title" := "Sintra"]> ∅))
              Example.world)
    as (_ & _ & _ & Hcomments & Hothers & _).
  split; [by vm_compute|]. split; [by vm_compute|].
  split; [by apply Hothers|exact Hcomments].
Defined.

Lemma X10_witness :
  let result :=
    respond (PostDeleteView 2)
      (Example.request Method.POST (Authenticated Example.alice) "/posts/2/delete/" ∅)
      Example.world in
  result.1 = HttpResponseRedirect (profile "alice")
  ∧ posts (db result.2) !! 2 = None
  ∧ posts (db result.2) !! 1 = posts Example.store !! 1
  ∧ users (db result.2) = users Example.store.
Proof.
  intros result.
  destruct (X10_post_delete_effects 2
              (Example.request Method.POST (Authenticated Example.alice) "/posts/2/delete/" ∅)
              Example.world)
    as (_ & Husers & _ & Hothers & _).
  split; [by vm_compute|]. split; [by vm_compute|].
  split; [by apply Hothers|exact Husers].
Defined.

(** X11. Creating a post.  For an authenticated user and a storage that
    accepts the write, [form_valid] stores the post under a key that was not
    in use, with the requesting user as its author whatever author the form's
    instance carried and with the other fields of the instance; every post
    stored before is still stored unchanged; nothing else changes; and the
    answer is the redirect to the profile of that user. *)
Theorem X11_post_create_form_valid (form_instance : Post.t) (request : HttpRequest)
    (w : World) (U : Instance User.t) :
  user request = Authenticated U →
  writable w = true →
  ∃ w' new,
    respond (PostCreateView_form_valid form_instance) request w
    = (HttpResponseRedirect (profile (User.username (row U))), w')
    ∧ posts (db w) !! new = None
    ∧ posts (db w') !! new = Some (set_author form_instance U)
    ∧ Post.author (set_author form_instance U) = U
    ∧ (∀ k P, posts (db w) !! k = Some P → posts (db w') !! k = Some P)
    ∧ size (posts (db w')) = S (size (posts (db w)))
    ∧ users (db w') = users (db w)
    ∧ categories (db w') = categories (db w)
    ∧ comments (db w') = comments (db w)
    ∧ outbox w' = outbox w.
Proof.
  intros Huser Hw.
  unfold respond, PostCreateView_form_valid, bind, write, ret.
  rewrite Huser, Hw. simpl.
  eexists _, (next_pk (posts (db w))). split; [done|]. simpl.
  pose proof (next_pk_fresh (posts (db w))) as Hfresh.
  split_and!; try done.
  - by rewrite lookup_insert_eq.
  - intros k P Hk. rewrite lookup_insert_ne; [done|]. congruence.
  - by rewrite map_size_insert_None.
Qed.

Lemma X11_witness :
  ∃ w' new,
    respond
      (PostCreateView_form_valid (Example.mk_post Example.alice Example.travel "Evora" 10 true))
      (Example.request Method.POST (Authenticated Example.bob) "/posts/create/" ∅)
      Example.world
    = (HttpResponseRedirect (profile "bob"), w')
    ∧ posts Example.store !! new = None
    ∧ Post.author <$> posts (db w') !! new = Some Example.bob
    ∧ size (posts (db w')) = 5%nat.
Proof.
  destruct (X11_post_create_form_valid
              (Example.mk_post Example.alice Example.travel "Evora" 10 true)
              (Example.request Method.POST (Authenticated Example.bob) "/posts/create/" ∅)
              Example.world Example.bob eq_refl eq_refl)
    as (w' & new & Hres & Hfree & Hnew & _ & _ & Hsize & _).
  exists w', new. split; [exact Hres|]. split; [exact Hfree|].
  split; [by rewrite Hnew|]. rewrite Hsize. by vm_compute.
Defined.

(** The anonymous user cannot be the author of a post: [form_valid] raises
    and stores nothing. *)
Lemma PostCreateView_form_valid_anonymous (form_instance : Post.t) (request : HttpRequest)
    (w : World) :
  user request = AnonymousUser →
  respond (PostCreateView_form_valid form_instance) request w
  = (HttpResponseServerError ValueError, w).
Proof.
  intros Hanon. unfold respond, PostCreateView_form_valid. by rewrite Hanon.
Qed.

(** ** List pages *)


Lemma get_object_or_404_none {A} (table : gmap Z A) (P : Instance A → Prop)
    `{∀ o, Decision (P o)} :
  (∀ k r, table !! k = Some r → ¬ P (instance k r)) →
  get_object_or_404 table P = Raise Http404.
Proof.
  intros Hnone. unfold get_object_or_404. rewrite filter_none; [done|].
  intros [k r] Ho. apply elem_of_objects in Ho. by apply Hnone.
Qed.






Lemma get_paginated_page_10_total {A} (int : string → option Z) (qs : list A)
    (page_number : option string) :
  ∃ pg, get_paginated_page int qs page_number 10 = Ok pg.
Proof.
  destruct (get_page_result qs 10 ltac:(lia) int page_number)
    as (np & n & _ & _ & _ & _ & Hget).
  unfold get_paginated_page. rewrite Hget. by eexists.
Qed.




(** X13. An unpublished category has no page.  When no stored category of
    the requested slug is published, the category view raises [Http404],
    whatever posts the categories of that slug hold. *)
Theorem X13_unpublished_category_not_found (env : Env) (category_slug : string)
    (request : HttpRequest) (db : Store) :
  (∀ k c, categories db !! k = Some c → Category.slug c = category_slug →
          Category.is_published c = false) →
  CategoryPostListView_get_context_data env category_slug request db = Raise Http404.
Proof.
  intros Hnone. unfold CategoryPostListView_get_context_data, CategoryPostListView_get_queryset.
  rewrite get_object_or_404_none; [done|].
  intros k c Hk [Hslug Hpub]. simpl in *. specialize (Hnone k c Hk Hslug). congruence.
Qed.

Lemma X13_witness :
  CategoryPostListView_get_context_data Example.env "hidden"
    (Example.request Method.GET (Authenticated Example.bob) "/category/hidden/" ∅)
    Example.store
  = Raise Http404.
Proof.
  apply (X13_unpublished_category_not_found Example.env "hidden"
           (Example.request Method.GET (Authenticated Example.bob) "/category/hidden/" ∅)
           Example.store).
  intros k c Hk Hslug.
  destruct (decide (k = 1)) as [->|Hk1].
  { vm_compute in Hk. injection Hk as <-. vm_compute in Hslug. congruence. }
  destruct (decide (k = 2)) as [->|Hk2].
  { vm_compute in Hk. by injection Hk as <-. }
  unfold Example.store in Hk. simpl in Hk.
  rewrite lookup_insert_ne, lookup_insert_ne, lookup_empty in Hk by done. done.
Defined.









(** X15. A name no stored user has: the profile route answers a GET request
    with not found and leaves the state as it was. *)
Theorem X15_unknown_user_not_found (env : Env) (username : string) (request : HttpRequest)
    (w : World) :
  method request = Method.GET →
  (∀ k u, users (db w) !! k = Some u → User.username u ≠ username) →
  respond (UserPostsListView env username) request w = (HttpResponseNotFound, w).
Proof.
  intros Hget Hnone. unfold respond, UserPostsListView, dispatch. rewrite Hget.
  unfold UserPostsListView_get, bind, query, UserPostsListView_get_queryset.
  rewrite (get_object_or_404_none (users (db w))
             (λ u, User.username (row u) = username)); [done|].
  intros k u Hk. simpl. exact (Hnone k u Hk).
Qed.

Lemma X15_witness :
  respond (UserPostsListView Example.env "carol")
    (Example.request Method.GET AnonymousUser "/profile/carol/" ∅) Example.world
  = (HttpResponseNotFound, Example.world).
Proof.
  apply (X15_unknown_user_not_found Example.env "carol"
           (Example.request Method.GET AnonymousUser "/profile/carol/" ∅) Example.world).
  - reflexivity.
  - intros k u Hk.
    destruct (decide (k = 1)) as [->|Hk1].
    { vm_compute in Hk. by injection Hk as <-. }
    destruct (decide (k = 2)) as [->|Hk2].
    { vm_compute in Hk. by injection Hk as <-. }
    unfold Example.world, Example.store in Hk. simpl in Hk.
    rewrite lookup_insert_ne, lookup_insert_ne, lookup_empty in Hk by done. done.
Defined.



(** With the clock frozen at [now env] the views with a clock are the
    views that read it once. *)
Lemma at_time_now (env : Env) : at_time env (now env) = env.
Proof. by destruct env. Qed.

Lemma MainPostListView_clocked_frozen (env : Env) :
  MainPostListView_clocked env (λ _, now env) = MainPostListView env.
Proof.
  unfold MainPostListView_clocked, MainPostListView, MainPostListView_get_clocked,
    MainPostListView_get.
  by rewrite at_time_now.
Qed.

Lemma UserPostsListView_clocked_frozen (env : Env) (username : string) :
  UserPostsListView_clocked env (λ _, now env) username = UserPostsListView env username.
Proof.
  unfold UserPostsListView_clocked, UserPostsListView, UserPostsListView_get_clocked,
    UserPostsListView_get.
  by rewrite at_time_now.
Qed.

Lemma CategoryPostListView_get_context_data_clocked_frozen (env : Env)
    (category_slug : string) (request : HttpRequest) (db : Store) :
  CategoryPostListView_get_context_data_clocked env (λ _, now env) category_slug request db
  = CategoryPostListView_get_context_data env category_slug request db.
Proof.
  unfold CategoryPostListView_get_context_data_clocked,
    CategoryPostListView_get_context_data.
  by rewrite at_time_now.
Qed.

(** ** Comment creation, all requests *)

Lemma CommentCreateView_run (env : Env) (k : Z) (request : HttpRequest) (w : World) :
  CommentCreateView env k request w =
  match posts (db w) !! k with
  | None => (Raise Http404, w)
  | Some P =>
      if decide (published (now env) P) then
        match user request with
        | AnonymousUser => (Ok (HttpResponseRedirect (login (full_path request))), w)
        | Authenticated U =>
            match method request with
            | Method.GET | Method.HEAD =>
                (Ok (TemplateResponse "blog/comment.html" (CommentFormContext None None)), w)
            | Method.POST | Method.PUT =>
                match CommentEditForm env (POST request) with
                | Some text =>
                    CommentCreateView_form_valid env k (instance k P) text request w
                | None =>
                    (Ok (TemplateResponse "blog/comment.html"
                           (CommentFormContext None (Some (POST request)))), w)
                end
            | Method.OPTIONS => (Ok HttpResponseOptions, w)
            | _ => (Ok HttpResponseNotAllowed, w)
            end
        end
      else (Raise Http404, w)
  end.
Proof.
  unfold CommentCreateView, bind, query. rewrite get_post_data_lookup.
  destruct (posts (db w) !! k) as [P|]; [|done].
  destruct (decide (published (now env) P)); [|done]. simpl.
  unfold LoginRequiredMixin. destruct (user request) as [|U]; [done|]. simpl.
  unfold dispatch, CommentCreateView_get, CommentCreateView_post, ret.
  destruct (method request); try done; by destruct (CommentEditForm env (POST request)).
Qed.

(** X17. What a comment creation request can do.  Whatever the request, the
    route leaves the users, the categories and the posts as they were, keeps
    every stored comment unchanged, and hands at most one message to
    [send_mail].  A comment that is stored afterwards and was not before has
    the requesting, authenticated user as its author, the post of the route,
    which meets the conditions of [get_post_data], as its post, and the text
    the form cleaned as its text. *)
Theorem X17_comment_create_effects (env : Env) (k : Z) (request : HttpRequest) (w : World) :
  let result := respond (CommentCreateView env k) request w in
  users (db result.2) = users (db w)
  ∧ categories (db result.2) = categories (db w)
  ∧ posts (db result.2) = posts (db w)
  ∧ (∀ c C, comments (db w) !! c = Some C → comments (db result.2) !! c = Some C)
  ∧ (∃ sent, outbox result.2 = outbox w ++ sent ∧ (length sent ≤ 1)%nat)
  ∧ (∀ c C, comments (db result.2) !! c = Some C → comments (db w) !! c = None →
       ∃ U P text,
         user request = Authenticated U
         ∧ get_post_data (db w) (now env) k = Ok (instance k P)
         ∧ CommentEditForm env (POST request) = Some text
         ∧ C = {| Comment.author := U; Comment.post := k; Comment.text := text |}).
Proof.
  intros result. pattern result.
  match goal with |- ?F _ => set (Q := F) end.
  assert (∀ r, Q (r, w)) as Hsame.
  { intros r. unfold Q. simpl. do 4 (split; [done|]). split.
    - exists []. split; [by rewrite app_nil_r|simpl; lia].
    - intros c C H1 H2. congruence. }
  subst result. unfold respond. rewrite CommentCreateView_run.
  destruct (posts (db w) !! k) as [P|] eqn:Hstored; [|apply Hsame].
  destruct (decide (published (now env) P)) as [Hpub|Hpub]; [|apply Hsame].
  destruct (user request) as [|U] eqn:Huser; [apply Hsame|].
  assert (Q (match CommentCreateView_form_valid env k (instance k P)
                     match CommentEditForm env (POST request) with
                     | Some text => text | None => "" end request w with
             | (Ok r, w') => (r, w')
             | (Raise Http404, w') => (HttpResponseNotFound, w')
             | (Raise e, w') => (HttpResponseServerError e, w')
             end) ∨ CommentEditForm env (POST request) = None) as Hvalid.
  { destruct (CommentEditForm env (POST request)) as [text|] eqn:Hform; [left|by right].
    rewrite (CommentCreateView_form_valid_run env k P text request U w) by done.
    pose proof (next_pk_fresh (comments (db w))) as Hfresh.
    destruct (writable w); unfold Q; simpl; do 3 (split; [done|]).
    - split; [|split].
      + intros c C Hc. rewrite lookup_insert_ne; [done|]. congruence.
      + eexists. split; [done|]. case_bool_decide; simpl; lia.
      + intros c C Hc Hnew. exists U, P, text.
        split; [done|]. split; [by rewrite get_post_data_lookup, Hstored, decide_True|].
        split; [done|].
        destruct (decide (c = next_pk (comments (db w)))) as [->|Hne].
        * rewrite lookup_insert_eq in Hc. congruence.
        * rewrite lookup_insert_ne in Hc by done. congruence.
    - split; [done|]. split.
      + eexists. split; [done|]. case_bool_decide; simpl; lia.
      + intros c C Hc Hnew. congruence. }
  destruct (method request); try apply Hsame.
  all: destruct Hvalid as [Hvalid| ->]; [|apply Hsame].
  all: by destruct (CommentEditForm env (POST request)); [|apply Hsame].
Qed.

Lemma X17_witness :
  let result :=
    respond (CommentCreateView Example.env 1)
      (Example.request Method.POST (Authenticated Example.bob) "/posts/1/comment/"
         (<["text" := "Hello"]> ∅))
      Example.world in
  comments (db result.2) !! 1 = Some Example.first_comment
  ∧ comments (db result.2) !! 2
    = Some {| Comment.author := Example.bob; Comment.post := 1; Comment.text := "Hello" |}
  ∧ posts (db result.2) = posts Example.store.
Proof.
  intros result.
  destruct (X17_comment_create_effects Example.env 1
              (Example.request Method.POST (Authenticated Example.bob) "/posts/1/comment/"
                 (<["text" := "Hello"]> ∅))
              Example.world)
    as (_ & _ & Hposts & Hkept & _ & _).
  split; [by apply Hkept|]. split; [by vm_compute|exact Hposts].
Defined.

(** ** Comment counts *)

Lemma objects_insert_fresh {A} (table : gmap Z A) (k : Z) (x : A) :
  table !! k = None → objects (<[k := x]> table) ≡ₚ instance k x :: objects table.
Proof.
  intros Hfresh. unfold objects. by rewrite map_to_list_insert.
Qed.

Lemma filter_length_Permutation {A} (P : A → Prop) `{∀ x, Decision (P x)} (l1 l2 : list A) :
  l1 ≡ₚ l2 → length (filter P l1) = length (filter P l2).
Proof. intros Hperm. by rewrite Hperm. Qed.

Lemma count_comments_insert (db : Store) (c : Z) (C : Comment.t) (o : Instance Post.t) :
  comments db !! c = None →
  count_comments (set_comments db (<[c := C]> (comments db))) o =
  if decide (Comment.post C = pk o) then S (count_comments db o) else count_comments db o.
Proof.
  intros Hfresh. unfold count_comments. simpl.
  rewrite (filter_length_Permutation _ _ _ (objects_insert_fresh (comments db) c C Hfresh)).
  rewrite filter_cons. simpl. by destruct (decide (Comment.post C = pk o)).
Qed.

Lemma CommentCreateView_success (env : Env) (k : Z) (request : HttpRequest) (w w' : World) :
  respond (CommentCreateView env k) request w = (HttpResponseRedirect (post_detail k), w') →
  ∃ U text,
    db w' = set_comments (db w)
              (<[next_pk (comments (db w)) :=
                   {| Comment.author := U; Comment.post := k; Comment.text := text |}]>
                 (comments (db w))).
Proof.
  unfold respond. rewrite CommentCreateView_run.
  destruct (posts (db w) !! k) as [P|]; [|done].
  destruct (decide (published (now env) P)); [|done].
  destruct (user request) as [|U] eqn:Huser; [done|].
  destruct (method request); try done;
    (destruct (CommentEditForm env (POST request)) as [text|]; [|done]);
    rewrite (CommentCreateView_form_valid_run env k P text request U w Huser);
    (destruct (writable w); [|done]); intros [= <-]; by exists U, text.
Qed.

(** X18. A created comment is counted.  After a comment creation request
    that was answered with the redirect to the page of the post, every row of
    [post_all_query] is there as before, with the comment count of the
    commented post one higher and all other counts unchanged; the same holds
    for [post_published_query]. *)
Theorem X18_created_comment_is_counted (env : Env) (k : Z) (request : HttpRequest)
    (w w' : World) (now : Z) (a : Annotated) :
  respond (CommentCreateView env k) request w = (HttpResponseRedirect (post_detail k), w') →
  let counted :=
    annotated (obj a)
      (if decide (pk (obj a) = k) then S (comment_count a) else comment_count a) in
  (a ∈ post_all_query (db w) → counted ∈ post_all_query (db w'))
  ∧ (a ∈ post_published_query (db w) now → counted ∈ post_published_query (db w') now).
Proof.
  intros Hres counted.
  apply CommentCreateView_success in Hres as (U & text & Hdb).
  assert (a ∈ post_all_query (db w) → counted ∈ post_all_query (db w')) as Hall.
  { intros Ha. apply elem_of_post_all_query in Ha as (o & -> & Ho).
    apply elem_of_post_all_query. exists o. rewrite Hdb. split; [|done].
    subst counted. unfold annotate. simpl. f_equal.
    rewrite count_comments_insert by apply next_pk_fresh. simpl.
    destruct (decide (k = pk o)), (decide (pk o = k)); congruence. }
  split; [done|].
  intros Ha. apply elem_of_post_published_query in Ha as [Hp Ha].
  apply elem_of_post_published_query. split; [done|]. by apply Hall.
Qed.

Lemma X18_witness :
  ∃ w',
    respond (CommentCreateView Example.env 1)
      (Example.request Method.POST (Authenticated Example.bob) "/posts/1/comment/"
         (<["text" := "Hello"]> ∅))
      Example.world
    = (HttpResponseRedirect (post_detail 1), w')
    ∧ annotated (instance 1 Example.public_post) 1 ∈ post_all_query Example.store
    ∧ annotated (instance 1 Example.public_post) 2 ∈ post_all_query (db w')
    ∧ annotated (instance 2 Example.draft_post) 0 ∈ post_all_query (db w').
Proof.
  set (result := respond (CommentCreateView Example.env 1)
                   (Example.request Method.POST (Authenticated Example.bob)
                      "/posts/1/comment/" (<["text" := "Hello"]> ∅))
                   Example.world).
  assert (result = (HttpResponseRedirect (post_detail 1), result.2)) as Hres
    by (vm_compute; reflexivity).
  exists result.2. split; [exact Hres|].
  assert (annotated (instance 1 Example.public_post) 1 ∈ post_all_query Example.store) as H1.
  { apply elem_of_post_all_query. by exists (instance 1 Example.public_post). }
  assert (annotated (instance 2 Example.draft_post) 0 ∈ post_all_query Example.store) as H2.
  { apply elem_of_post_all_query. by exists (instance 2 Example.draft_post). }
  split; [exact H1|]. split.
  - apply (X18_created_comment_is_counted Example.env 1 _ Example.world result.2 1000
             (annotated (instance 1 Example.public_post) 1) Hres).
    exact H1.
  - apply (X18_created_comment_is_counted Example.env 1 _ Example.world result.2 1000
             (annotated (instance 2 Example.draft_post) 0) Hres).
    exact H2.
Defined.
